(** * pin-github-stars: a shallow embedding of [pin-github-stars.py]

    The script copies a user's starred GitHub repositories into Pinboard
    bookmarks.  This development embeds the synchronisation logic of the
    script (the bookmark request of [add_bookmark], the page generator
    [get_github_stars], [filter_stars] and the loop of [main]) and states
    its properties over that embedding.

    Conventions.
    - Python integers are [Z]; Python strings are [string] (byte strings);
      [str.lower] is the ASCII lower-casing of the C locale.  Texts are
      taken to be ASCII, as the names of GitHub repositories are: on other
      text the [unicode] operations of Python 2 ([lower], [format]) are
      not the byte-string operations modelled here.
    - A JSON [null] is [None].
    - The two remote services are not part of the script: they are the
      variables of [Section Run] (a function for the GitHub listing, a
      state machine for Pinboard).
    - What the script does to the outside world (requests, prints, sleeps)
      is recorded as a list of [event]s, in program order. *)

From Stdlib Require Import ZArith List String Ascii Bool Lia DecimalString.
Import ListNotations.
Local Open Scope string_scope.
Local Open Scope list_scope.
Local Open Scope Z_scope.

Set Implicit Arguments.

(** ** Python strings *)

Module PyStr.

(** The characters that have no plain spelling inside a literal. *)
Definition dquote : string := String (ascii_of_nat 34) EmptyString.
Definition newline : string := String (ascii_of_nat 10) EmptyString.

Definition is_upper (c : ascii) : bool :=
  let n := nat_of_ascii c in (Nat.leb 65 n && Nat.leb n 90)%bool.

Definition is_digit (c : ascii) : bool :=
  let n := nat_of_ascii c in (Nat.leb 48 n && Nat.leb n 57)%bool.

Definition lower_char (c : ascii) : ascii :=
  if is_upper c then ascii_of_nat (nat_of_ascii c + 32) else c.

(** [s.lower()] *)
Fixpoint lower (s : string) : string :=
  match s with
  | EmptyString => EmptyString
  | String c s' => String (lower_char c) (lower s')
  end.

(** Truth value of an optional string: [None] and [''] are false. *)
Definition truthy (o : option string) : bool :=
  match o with
  | None => false
  | Some s => negb (s =? "")%string
  end.

(** [str(n)] for an integer. *)
Definition of_Z (n : Z) : string := NilZero.string_of_int (Z.to_int n).

End PyStr.

(** ** Constants of the script *)

Definition SLEEP_TIME : Z := 3.
Definition MAX_RETRIES : Z := 10.

(** ** Data *)

(** One element of the JSON array returned by [GET /user/starred]; only the
    keys the script reads. *)
Record star := Star {
  full_name : string;
  html_url : string;
  description : option string;
  homepage : option string;
  language : option string
}.

(** The [params] dictionary of [add_bookmark].  [extended] is optional
    because the repository description may be [null]. *)
Record add_params := AddParams {
  p_description : string;
  p_url : string;
  p_extended : option string;
  p_tags : string;
  p_replace : string;
  p_auth_token : string;
  p_format : string
}.

Inductive exn := TypeError | IndexError.

(** ** [add_bookmark]: the request *)

(** Lines 62-64.  [description += ...] on [None] raises [TypeError]. *)
Definition extended_of (gh_data : star) : exn + option string :=
  let description := description gh_data in
  if PyStr.truthy (homepage gh_data) then
    match description, homepage gh_data with
    | Some d, Some h =>
        inr (Some (d ++ PyStr.newline ++ PyStr.newline ++ "Project homepage: " ++ h)%string)
    | _, _ => inl TypeError
    end
  else inr description.

(** Lines 65-67. *)
Definition tags_of (gh_data : star) : string :=
  let tags := "github-star" in
  if PyStr.truthy (language gh_data) then
    match language gh_data with
    | Some l => (tags ++ " " ++ PyStr.lower l)%string
    | None => tags
    end
  else tags.

(** Lines 62-74: the request [add_bookmark] sends, or the exception raised
    while building it. *)
Definition add_bookmark_params (gh_data : star) (pb_api_token : string)
  : exn + add_params :=
  match extended_of gh_data with
  | inl e => inl e
  | inr description =>
      let tags := tags_of gh_data in
      inr {| p_description := full_name gh_data;
             p_url := html_url gh_data;
             p_extended := description;
             p_tags := tags;
             p_replace := "no";
             p_auth_token := pb_api_token;
             p_format := "json" |}
  end.

(** ** [filter_stars] *)

Definition same_name (a b : string) : bool :=
  (PyStr.lower a =? PyStr.lower b)%string.

(** The loop of lines 119-121 from index [i] on; [rest] is [stars[i:]], so
    its head is [stars[i]]. *)
Fixpoint filter_from (stars : list star) (fn : string) (i : nat)
    (rest : list star) : list star * bool :=
  match rest with
  | [] => (stars, false)
  | s :: rest' =>
      if same_name (full_name s) fn then (firstn i stars, true)
      else filter_from stars fn (S i) rest'
  end.

Definition filter_stars (stars : list star) (fn : string) : list star * bool :=
  filter_from stars fn 0 stars.

(** ** The regular expression of line 108

    [page=(\d+)>; rel="next",.*page=(\d+)>; rel="last"] is a sequence of
    literals, two captured [\d+] and one [.*].  [search] is Python's
    [re.search] on such a sequence: leftmost start, greedy quantifiers,
    backtracking. *)

Module Re.

Inductive atom :=
| Lit (s : string)   (* a literal text *)
| Digits             (* [(\d+)], captured *)
| DotStar.           (* [.*], no newline *)

(** [s] without the prefix [l], when it starts with [l]. *)
Fixpoint strip (l s : string) : option string :=
  match l, s with
  | EmptyString, _ => Some s
  | String a l', String b s' => if Ascii.eqb a b then strip l' s' else None
  | String _ _, EmptyString => None
  end.

(** [(\d+)] followed by the continuation [k]; [acc] holds the digits
    taken so far.  The longest run is tried first. *)
Fixpoint digits_then (k : string -> option (list string)) (acc s : string)
  : option (list string) :=
  match s with
  | String c s' =>
      if PyStr.is_digit c then
        let acc' := (acc ++ String c EmptyString)%string in
        match digits_then k acc' s' with
        | Some g => Some g
        | None => option_map (cons acc') (k s')
        end
      else None
  | EmptyString => None
  end.

(** [.*] followed by the continuation [k]. *)
Fixpoint dotstar_then (k : string -> option (list string)) (s : string)
  : option (list string) :=
  match s with
  | String c s' =>
      if Ascii.eqb c (ascii_of_nat 10) then k s
      else match dotstar_then k s' with
           | Some g => Some g
           | None => k s
           end
  | EmptyString => k s
  end.

(** A match of the whole sequence at the start of the text: the captured
    groups, in order. *)
Fixpoint match_here (p : list atom) : string -> option (list string) :=
  match p with
  | [] => fun _ => Some []
  | Lit l :: p' => fun s =>
      match strip l s with
      | Some s' => match_here p' s'
      | None => None
      end
  | Digits :: p' => digits_then (match_here p') EmptyString
  | DotStar :: p' => dotstar_then (match_here p')
  end.

(** [re.search(p, s)], reduced to [m.groups()]. *)
Fixpoint search (p : list atom) (s : string) : option (list string) :=
  match match_here p s with
  | Some g => Some g
  | None =>
      match s with
      | String _ s' => search p s'
      | EmptyString => None
      end
  end.

End Re.

(** The pattern of line 108. *)
Definition link_pattern : list Re.atom :=
  [ Re.Lit "page="; Re.Digits;
    Re.Lit (">; rel=" ++ PyStr.dquote ++ "next" ++ PyStr.dquote ++ ",");
    Re.DotStar;
    Re.Lit "page="; Re.Digits;
    Re.Lit (">; rel=" ++ PyStr.dquote ++ "last" ++ PyStr.dquote) ]%string.

(** ** Python values of the variables [page] and [last]

    They start as the integer 1 and become the strings captured by the
    regular expression (line 111). *)

Inductive pyval :=
| PyInt (n : Z)
| PyString (s : string).

(** [a <= b] in Python 2: integers by value, strings byte by byte, and an
    integer before any string. *)
Definition py_le (a b : pyval) : bool :=
  match a, b with
  | PyInt x, PyInt y => x <=? y
  | PyString x, PyString y => String.leb x y
  | PyInt _, PyString _ => true
  | PyString _, PyInt _ => false
  end.

(** The text of a query parameter. *)
Definition py_param (v : pyval) : string :=
  match v with
  | PyInt n => PyStr.of_Z n
  | PyString s => s
  end.

(** ** The GitHub side *)

(** The headers dictionary [gh_headers] of [main]. *)
Record gh_headers := GhHeaders {
  h_authorization : string;
  h_accept : string;
  h_user_agent : string
}.

(** [GET /user/starred] with [params = {direction, page}]. *)
Record gh_request := GhRequest {
  q_headers : gh_headers;
  q_direction : string;
  q_page : string
}.

(** What the generator reads of a response: the JSON body (the array of
    starred repositories; for a failed request the body is an error object
    that [main] only prints), the status and the [link] header. *)
Record gh_response := GhResponse {
  r_json : list star;
  r_status : Z;
  r_link : option string
}.

(** State of the generator [get_github_stars] between two [next()] calls:
    not started, suspended at the [yield] of line 106, or finished. *)
Inductive gen_state :=
| GenStart
| GenYielded (r : gh_response) (page last : pyval)
| GenDone.

(** ** The Pinboard side *)

(** A bookmark as returned by [GET posts/recent]. *)
Record post := Post {
  post_description : string;
  post_href : string;
  post_tags : string
}.

(** The [params] dictionary of [get_most_recent_bookmark]. *)
Record recent_params := RecentParams {
  c_tag : string;
  c_count : Z;
  c_auth_token : string;
  c_format : string
}.

(** What the script reads of the answer to [posts/add]: the key
    [result_code] of the JSON body and the HTTP status. *)
Record add_response := AddResponse {
  result_code : string;
  status_code : Z
}.

(** ** Events and outcomes *)

(** Lines printed on standard output. *)
Inductive line :=
| InfoGetting                 (* [INFO] GitHub: Getting starred repos ... *)
| InfoAdding (name : string)  (* [INFO] Pinboard: Adding <name> ... *)
| WarnRateLimited             (* [WARN] Pinboard: Rate-limited! Retrying ... *)
| WarnResult (code : string). (* [WARN] Pinboard: <code>. *)

(** Messages of [exit_with_error]. *)
Inductive errline :=
| ErrNoGitHubToken
| ErrNoPinboardToken
| ErrGitHub (result : list star)
| ErrPinboard (code : string).

Inductive event :=
| Recent (p : recent_params) (posts : list post)
| Fetch (q : gh_request) (r : gh_response)
| Add (p : add_params) (r : add_response)
| Print (l : line)
| PrintErr (e : errline)
| Sleep (secs : Z).

(** How a run ends: [main] returns (exit status 0), [sys.exit(code)], an
    uncaught exception, or the model's fuel is used up (the run is still
    going). *)
Inductive outcome :=
| Returned
| Exited (code : Z)
| Raised (e : exn)
| OutOfFuel.

(** ** The script as a state-passing program *)

Section Run.

(** Pinboard: some state, the answer to [posts/recent] (the value of the
    key [posts]) and the answer to [posts/add] with the state after it. *)
Variable PB : Type.
Variable pb_recent : PB -> recent_params -> list post.
Variable pb_add : PB -> add_params -> add_response * PB.

(** GitHub: the listing does not change during a run. *)
Variable github : gh_request -> gh_response.

(** A computation of the script: from a Pinboard state to the events it
    produced, the Pinboard state it left and either the way the run
    ended or a value. *)
Definition M (A : Type) : Type := PB -> list event * PB * (outcome + A).

Definition ret {A} (a : A) : M A := fun pb => ([], pb, inr a).

Definition bind {A B} (m : M A) (f : A -> M B) : M B :=
  fun pb =>
    match m pb with
    | (ev1, pb1, inl o) => (ev1, pb1, inl o)
    | (ev1, pb1, inr a) =>
        match f a pb1 with
        | (ev2, pb2, r) => (ev1 ++ ev2, pb2, r)
        end
    end.

Definition emit (e : event) : M unit := fun pb => ([e], pb, inr tt).

Definition stop {A} (o : outcome) : M A := fun pb => ([], pb, inl o).

Notation "x <- m ;; f" := (bind m (fun x => f))
  (at level 61, m at next level, right associativity).
Notation "m ;; f" := (bind m (fun _ => f))
  (at level 61, right associativity).

(** [when c m]: [if c: m]. *)
Definition when (c : bool) (m : M unit) : M unit := if c then m else ret tt.

Definition print (l : line) : M unit := emit (Print l).
Definition sleep (secs : Z) : M unit := emit (Sleep secs).

(** Lines 125-127. *)
Definition exit_with_error {A} (msg : errline) : M A :=
  emit (PrintErr msg) ;; stop (Exited 1).

(** Lines 51-78: returns [r.json()['result_code']] and [r.status_code]. *)
Definition add_bookmark (gh_data : star) (pb_api_token : string)
  : M (string * Z) :=
  match add_bookmark_params gh_data pb_api_token with
  | inl e => stop (Raised e)
  | inr params =>
      fun pb =>
        let (r, pb') := pb_add pb params in
        ([Add params r], pb', inr (result_code r, status_code r))
  end.

(** Lines 81-91: [r.json()['posts'] or None]. *)
Definition get_most_recent_bookmark (pb_api_token : string)
  : M (option (list post)) :=
  fun pb =>
    let params := {| c_tag := "github-star"; c_count := 1;
                     c_auth_token := pb_api_token; c_format := "json" |} in
    let posts := pb_recent pb params in
    ([Recent params posts], pb,
     inr (match posts with [] => None | _ :: _ => Some posts end)).

(** *** The generator [get_github_stars] *)

(** [m.groups()] for the pattern of line 108, which has two groups. *)
Definition link_groups (link : string) : option (string * string) :=
  match Re.search link_pattern link with
  | Some [page; last] => Some (page, last)
  | _ => None
  end.

(** Lines 101-106: the head of the [while] loop up to the [yield]. *)
Definition loop_head (headers : gh_headers) (sort_dir : string)
    (page last : pyval) : M (option (list star * Z * gen_state)) :=
  if py_le page last then
    let q := {| q_headers := headers; q_direction := sort_dir;
                q_page := py_param page |} in
    let r := github q in
    emit (Fetch q r) ;;
    ret (Some (r_json r, r_status r, GenYielded r page last))
  else ret None.

(** One [next()] on the generator: runs it to its next [yield] ([Some],
    with the state to resume from) or to its end ([None]). *)
Definition gen_next (headers : gh_headers) (sort_dir : string)
    (g : gen_state) : M (option (list star * Z * gen_state)) :=
  match g with
  | GenStart => loop_head headers sort_dir (PyInt 1) (PyInt 1)
  | GenYielded r page last =>
      match r_link r with
      | Some link =>
          match link_groups link with
          | None => ret None
          | Some (page', last') =>
              loop_head headers sort_dir (PyString page') (PyString last')
          end
      | None => loop_head headers sort_dir page last
      end
  | GenDone => ret None
  end.

(** What one [next()] does, as a relation: the generator ends, or it
    sends the request [q], gets [r] and yields, to resume from [g']. *)
Inductive gen_step (headers : gh_headers) (sort_dir : string)
    (g : gen_state) (pb : PB)
  : option (gh_request * gh_response * gen_state) -> Prop :=
| gen_step_end :
    gen_next headers sort_dir g pb = ([], pb, inr None) ->
    gen_step headers sort_dir g pb None
| gen_step_yield q r g' :
    q_headers q = headers ->
    q_direction q = sort_dir ->
    r = github q ->
    gen_next headers sort_dir g pb
    = ([Fetch q r], pb, inr (Some (r_json r, r_status r, g'))) ->
    gen_step headers sort_dir g pb (Some (q, r, g')).

(** *** Publishing one star: lines 189-203 *)

Definition not_done (r : string) : bool :=
  negb (PyStr.lower r =? "done")%string.

(** The [while ... else] of lines 192-203. *)
Fixpoint retry_loop (fuel : nat) (pb_api_token : string) (star_ : star)
    (r : string) (s : Z) (retry : Z) : M unit :=
  match fuel with
  | O => stop OutOfFuel
  | S fuel' =>
      if ((s =? 429) && (retry <=? MAX_RETRIES))%bool then
        print WarnRateLimited ;;
        sleep (SLEEP_TIME * retry) ;;
        rs <- add_bookmark star_ pb_api_token ;;
        let '(r, s) := rs in
        when (not_done r) (exit_with_error (ErrPinboard r)) ;;
        retry_loop fuel' pb_api_token star_ r s (retry + 1)
      else
        when (not_done r) (print (WarnResult r)) ;;
        sleep SLEEP_TIME
  end.

(** The body of [for star in result]. *)
Definition publish_star (pb_api_token : string) (star_ : star) : M unit :=
  print (InfoAdding (full_name star_)) ;;
  rs <- add_bookmark star_ pb_api_token ;;
  let '(r, s) := rs in
  retry_loop (S (Z.to_nat MAX_RETRIES)) pb_api_token star_ r s 1.

(** [for star in result: ...] *)
Fixpoint publish_all (pb_api_token : string) (result : list star) : M unit :=
  match result with
  | [] => ret tt
  | star_ :: rest =>
      publish_star pb_api_token star_ ;;
      publish_all pb_api_token rest
  end.

(** *** The loop of [main]: lines 183-205 *)

Fixpoint main_loop (fuel : nat) (headers : gh_headers) (sort_dir : string)
    (pb_api_token : string) (g : gen_state) (most_recent : option string)
    (hit_most_recent : bool) : M unit :=
  match fuel with
  | O => stop OutOfFuel
  | S fuel' =>
      nxt <- gen_next headers sort_dir g ;;
      match nxt with
      | None => ret tt
      | Some (result, status, g') =>
          when (negb (status =? 200)) (exit_with_error (ErrGitHub result)) ;;
          let '(result, hit_most_recent) :=
            match most_recent with
            | Some fn => filter_stars result fn
            | None => (result, hit_most_recent)
            end in
          publish_all pb_api_token result ;;
          when hit_most_recent (stop (Exited 0)) ;;
          main_loop fuel' headers sort_dir pb_api_token g' most_recent
                    hit_most_recent
      end
  end.

(** Lines 174-180. *)
Definition resolve_cursor (most_recent : option (list post))
  : exn + (string * option string) :=
  match most_recent with
  | Some (p :: _) => inr ("desc", Some (post_description p))
  | Some [] => inl IndexError
  | None => inr ("asc", None)
  end.

(** Lines 174-205. *)
Definition sync (fuel : nat) (headers : gh_headers) (pb_api_token : string)
  : M unit :=
  most_recent <- get_most_recent_bookmark pb_api_token ;;
  match resolve_cursor most_recent with
  | inl e => stop (Raised e)
  | inr (sort_dir, most_recent) =>
      print InfoGetting ;;
      main_loop fuel headers sort_dir pb_api_token GenStart most_recent false
  end.

(** Lines 153-205; the two tokens are the values of
    [args.github_token or load_token(...)] and
    [args.pinboard_token or load_token(...)]. *)
Definition main_body (fuel : nat) (gh_api_token pb_api_token : option string)
    (github_user : string) : M unit :=
  match gh_api_token with
  | None => exit_with_error ErrNoGitHubToken
  | Some gh_tok =>
      match pb_api_token with
      | None => exit_with_error ErrNoPinboardToken
      | Some pb_tok =>
          let gh_headers := {| h_authorization := ("token " ++ gh_tok)%string;
                               h_accept := "application/vnd.github.v3+json";
                               h_user_agent := github_user |} in
          sync fuel gh_headers pb_tok
      end
  end.

(** [list(get_github_stars(headers, sort_dir))]: the generator consumed
    to its end, from state [g]. *)
Fixpoint drain (fuel : nat) (headers : gh_headers) (sort_dir : string)
    (g : gen_state) : M (list (list star * Z)) :=
  match fuel with
  | O => stop OutOfFuel
  | S fuel' =>
      nxt <- gen_next headers sort_dir g ;;
      match nxt with
      | None => ret []
      | Some (result, status, g') =>
          rest <- drain fuel' headers sort_dir g' ;;
          ret ((result, status) :: rest)
      end
  end.

(** The answers of Pinboard to [n] successive [posts/add] with the same
    parameters, and the state after them. *)
Fixpoint pb_replies (n : nat) (pb : PB) (p : add_params)
  : list add_response * PB :=
  match n with
  | O => ([], pb)
  | S n' =>
      let (r, pb1) := pb_add pb p in
      let (rs, pb2) := pb_replies n' pb1 p in
      (r :: rs, pb2)
  end.

(** The run of a computation: its events, the Pinboard state it leaves
    and how it ends. *)
Definition run (m : M unit) (pb : PB) : list event * PB * outcome :=
  match m pb with
  | (ev, pb', inl o) => (ev, pb', o)
  | (ev, pb', inr _) => (ev, pb', Returned)
  end.

End Run.

Arguments ret {PB A} a pb.
Arguments stop {PB A} o pb.

(** ** Reading a trace *)

(** The pages requested from GitHub, with the answers. *)
Fixpoint fetched (evs : list event) : list (gh_request * gh_response) :=
  match evs with
  | [] => []
  | Fetch q r :: evs' => (q, r) :: fetched evs'
  | _ :: evs' => fetched evs'
  end.

(** The stars handed to the publisher: every pass of [for star in result]
    starts with the line [Adding <full_name>]. *)
Fixpoint adding (evs : list event) : list string :=
  match evs with
  | [] => []
  | Print (InfoAdding name) :: evs' => name :: adding evs'
  | _ :: evs' => adding evs'
  end.

(** The bookmark requests sent, with the answers (retries included). *)
Fixpoint adds (evs : list event) : list (add_params * add_response) :=
  match evs with
  | [] => []
  | Add p r :: evs' => (p, r) :: adds evs'
  | _ :: evs' => adds evs'
  end.

(** The pauses, in seconds. *)
Fixpoint sleeps (evs : list event) : list Z :=
  match evs with
  | [] => []
  | Sleep n :: evs' => n :: sleeps evs'
  | _ :: evs' => sleeps evs'
  end.

(** The bookmarks Pinboard accepted. *)
Definition created (evs : list event) : list add_params :=
  map fst (filter (fun pr => negb (not_done (result_code (snd pr)))) (adds evs)).

Definition names (stars : list star) : list string := map full_name stars.

(** [l] starts [l']. *)
Definition prefix_of {A} (l l' : list A) : Prop := exists rest, l' = l ++ rest.

(** ** Test doubles for the two services *)

Module Env.

(** *** A GitHub listing

    [stars] in the order of starring, oldest first, cut in pages of
    [per_page].  The [link] header follows GitHub: absent when there is a
    single page; otherwise [prev], [next], [last], [first] relations,
    [next] and [last] only before the last page. *)

Definition url (direction : string) (n : nat) : string :=
  ("<https://api.github.com/user/starred?direction=" ++ direction
     ++ "&page=" ++ NilZero.string_of_uint (Nat.to_uint n) ++ ">")%string.

Definition rel (name : string) : string :=
  ("; rel=" ++ PyStr.dquote ++ name ++ PyStr.dquote)%string.

Definition link_header (direction : string) (n last : nat) : string :=
  ((if Nat.ltb 1 n then url direction (n - 1) ++ rel "prev" ++ ", " else "")
   ++ (if Nat.ltb n last
       then url direction (n + 1) ++ rel "next" ++ ", "
            ++ url direction last ++ rel "last" ++ ", "
       else "")
   ++ url direction 1 ++ rel "first")%string.

Definition page_count (total per_page : nat) : nat :=
  Nat.max 1 (Nat.div (total + per_page - 1) per_page).

Definition listing (stars : list star) (per_page : nat) (q : gh_request)
  : gh_response :=
  let ordered := if (q_direction q =? "desc")%string then rev stars else stars in
  let last := page_count (List.length stars) per_page in
  match option_map Nat.of_uint (NilEmpty.uint_of_string (q_page q)) with
  | Some n =>
      {| r_json := firstn per_page (skipn ((n - 1) * per_page) ordered);
         r_status := 200;
         r_link := if Nat.ltb 1 last
                   then Some (link_header (q_direction q) n last)
                   else None |}
  | None => {| r_json := []; r_status := 422; r_link := None |}
  end.

(** A listing that always fails. *)
Definition failing (status : Z) (q : gh_request) : gh_response :=
  {| r_json := []; r_status := status; r_link := None |}.

(** *** A Pinboard account

    The bookmarks, newest first, and the answers the service is forced
    to give to the next [posts/add] requests (rate limiting); once these
    are used up, [posts/add] with [replace=no] stores the bookmark unless
    its URL is already bookmarked. *)

Record account := Account {
  bookmarks : list post;
  forced : list add_response
}.

(** [tags] is a space-separated list. *)
Fixpoint split_spaces (acc s : string) : list string :=
  match s with
  | EmptyString => [acc]
  | String c s' =>
      if Ascii.eqb c " " then acc :: split_spaces EmptyString s'
      else split_spaces (acc ++ String c EmptyString)%string s'
  end.

Definition has_tag (tag : string) (p : post) : bool :=
  existsb (String.eqb tag) (split_spaces EmptyString (post_tags p)).

Definition recent (a : account) (c : recent_params) : list post :=
  firstn (Z.to_nat (c_count c)) (filter (has_tag (c_tag c)) (bookmarks a)).

Definition add (a : account) (p : add_params) : add_response * account :=
  match forced a with
  | r :: rs => (r, {| bookmarks := bookmarks a; forced := rs |})
  | [] =>
      if existsb (fun b => (post_href b =? p_url p)%string) (bookmarks a)
      then ({| result_code := "item already exists"; status_code := 200 |}, a)
      else ({| result_code := "done"; status_code := 200 |},
            {| bookmarks := {| post_description := p_description p;
                               post_href := p_url p;
                               post_tags := p_tags p |} :: bookmarks a;
               forced := [] |})
  end.

Definition limited : add_response :=
  {| result_code := "too many requests"; status_code := 429 |}.

(** *** Sample data *)

Definition repo (name : string) : star :=
  {| full_name := name;
     html_url := ("https://github.com/" ++ name)%string;
     description := Some "A repository";
     homepage := None;
     language := Some "Python" |}.

Definition headers : gh_headers :=
  {| h_authorization := "token t0";
     h_accept := "application/vnd.github.v3+json";
     h_user_agent := "octocat" |}.

Definition bookmark_of (s : star) : post :=
  {| post_description := full_name s; post_href := html_url s;
     post_tags := tags_of s |}.

End Env.

(** ** Auxiliary definitions for the statements *)

(** The query of [get_most_recent_bookmark]. *)
Definition recent_query (pb_api_token : string) : recent_params :=
  {| c_tag := "github-star"; c_count := 1;
     c_auth_token := pb_api_token; c_format := "json" |}.

(** The first request of the generator. *)
Definition first_page (headers : gh_headers) (sort_dir : string) : gh_request :=
  {| q_headers := headers; q_direction := sort_dir; q_page := "1" |}.

(** What is kept of a page: all of it without a target, the part before
    the target with one. *)
Definition kept (most_recent : option string) (page : list star) : list star :=
  match most_recent with
  | Some fn => fst (filter_stars page fn)
  | None => page
  end.

(** The names kept of the fetched pages, in order. *)
Definition expected (most_recent : option string)
    (pages : list (gh_request * gh_response)) : list string :=
  List.concat (map (fun qr => names (kept most_recent (r_json (snd qr)))) pages).

(** The bookmark Pinboard accepted last. *)
Definition last_created (evs : list event) : option add_params :=
  last (map Some (created evs)) None.

(** The decimal text of a page number, and the request for that page. *)
Definition page_name (n : nat) : string :=
  NilZero.string_of_uint (Nat.to_uint n).

Definition page_request (headers : gh_headers) (sort_dir : string) (n : nat)
  : gh_request :=
  {| q_headers := headers; q_direction := sort_dir; q_page := page_name n |}.

(** How a run ends, from the result of its computation. *)
Definition ending (res : outcome + unit) : outcome :=
  match res with
  | inl o => o
  | inr _ => Returned
  end.

(** The text appended for a homepage [h]. *)
Definition homepage_note (h : string) : string :=
  (PyStr.newline ++ PyStr.newline ++ "Project homepage: " ++ h)%string.

(** A repository without description and with a homepage, as GitHub
    returns it. *)
Definition undescribed : star :=
  {| full_name := "octocat/Spoon-Knife";
     html_url := "https://github.com/octocat/Spoon-Knife";
     description := None;
     homepage := Some "https://example.org";
     language := Some "HTML" |}.

(** The events of the retries numbered [k], [k+1], ... answered by [rs]. *)
Fixpoint retry_events (p : add_params) (k : Z) (rs : list add_response)
  : list event :=
  match rs with
  | [] => []
  | r :: rs' =>
      [Print WarnRateLimited; Sleep (SLEEP_TIME * k); Add p r]
        ++ retry_events p (k + 1) rs'
  end.

(** The pauses [SLEEP_TIME * 1], ..., [SLEEP_TIME * n]. *)
Definition backoff (n : nat) : list Z :=
  map (fun k => SLEEP_TIME * Z.of_nat k) (seq 1 n).

(** An answer that lets the retry loop go on: still rate-limited, with the
    result code [done]. *)
Definition limited_done (r : add_response) : Prop :=
  status_code r = 429 /\ not_done (result_code r) = false.

(** ** Scenarios *)

Module Scenario.

Definition tok : string := "t1".

Definition a : star := Env.repo "octo/alpha".
Definition b : star := Env.repo "octo/beta".
Definition x : star := Env.repo "octo/xi".
Definition y : star := Env.repo "octo/ypsilon".

(** [n] repositories [octo/r1], ..., in the order of starring. *)
Definition numbered (n : nat) : list star :=
  map (fun k => Env.repo ("octo/r" ++ NilZero.string_of_uint (Nat.to_uint k)))
      (seq 1 n).

(** The request for [a]. *)
Definition a_params : add_params :=
  {| p_description := "octo/alpha";
     p_url := "https://github.com/octo/alpha";
     p_extended := Some "A repository";
     p_tags := "github-star python";
     p_replace := "no";
     p_auth_token := "t1";
     p_format := "json" |}.

(** The request for [b]. *)
Definition b_params : add_params :=
  {| p_description := "octo/beta";
     p_url := "https://github.com/octo/beta";
     p_extended := Some "A repository";
     p_tags := "github-star python";
     p_replace := "no";
     p_auth_token := "t1";
     p_format := "json" |}.

Definition missing_url : add_response :=
  {| result_code := "missing url"; status_code := 200 |}.

(** Pinboard without bookmarks. *)
Definition empty : Env.account := {| Env.bookmarks := []; Env.forced := [] |}.

(** Pinboard after [x] was bookmarked. *)
Definition resumed : Env.account :=
  {| Env.bookmarks := [Env.bookmark_of x]; Env.forced := [] |}.

(** The same, rate-limited for the next two requests. *)
Definition resumed_limited : Env.account :=
  {| Env.bookmarks := [Env.bookmark_of x];
     Env.forced := [Env.limited; Env.limited] |}.

(** Pinboard rate-limited for the next eleven requests. *)
Definition always_limited : Env.account :=
  {| Env.bookmarks := []; Env.forced := repeat Env.limited 11 |}.

(** Still rate-limited, with the result code [done]. *)
Definition limited_but_done : add_response :=
  {| result_code := "done"; status_code := 429 |}.

(** Rate-limited once, then nine times with the result code [done], then
    once more with another code. *)
Definition limited_to_the_end : Env.account :=
  {| Env.bookmarks := [];
     Env.forced := Env.limited :: repeat limited_but_done 9 ++ [Env.limited] |}.

(** A first answer that is not accepted, without rate limiting. *)
Definition refusing : Env.account :=
  {| Env.bookmarks := [];
     Env.forced := [missing_url] |}.

(** Four stars in two pages. *)
Definition two_pages : gh_request -> gh_response :=
  Env.listing [x; y; b; a] 2.

(** [x], then [b], then [a] were starred: one page. *)
Definition one_page : gh_request -> gh_response :=
  Env.listing [x; b; a] 30.

(** 271 stars: ten pages of 30. *)
Definition ten_pages : gh_request -> gh_response :=
  Env.listing (numbered 271) 30.

End Scenario.

(** ** Token files and the start of [main] *)

Module PyFile.

(** The characters [str.strip()] removes: tab, line feed, vertical tab,
    form feed, carriage return and space. *)
Definition is_space (c : ascii) : bool :=
  let n := nat_of_ascii c in
  ((Nat.leb 9 n && Nat.leb n 13) || Nat.eqb n 32)%bool.

Fixpoint lstrip (s : string) : string :=
  match s with
  | EmptyString => EmptyString
  | String c s' => if is_space c then lstrip s' else s
  end.

Fixpoint rstrip (s : string) : string :=
  match s with
  | EmptyString => EmptyString
  | String c s' =>
      match rstrip s' with
      | EmptyString => if is_space c then EmptyString else String c EmptyString
      | t => String c t
      end
  end.

(** [s.strip()] *)
Definition strip (s : string) : string := lstrip (rstrip s).

(** [f.readline()] on a file opened at its start: the text up to the
    first line feed, line feed included. *)
Fixpoint readline (content : string) : string :=
  match content with
  | EmptyString => EmptyString
  | String c rest =>
      if Ascii.eqb c (ascii_of_nat 10) then String c EmptyString
      else String c (readline rest)
  end.

(** [c in s] *)
Fixpoint occurs (c : ascii) (s : string) : bool :=
  match s with
  | EmptyString => false
  | String c' s' => (Ascii.eqb c c' || occurs c s')%bool
  end.

End PyFile.

(** The options [main] reads from the command line; an option that was
    not given is [None]. *)
Record arguments := Args {
  arg_github_token : option string;
  arg_pinboard_token : option string;
  arg_github_user : string
}.

(** [a or b] on optional strings. *)
Definition py_or (a b : option string) : option string :=
  if PyStr.truthy a then a else b.

Section Start.

Variable PB : Type.
Variable pb_recent : PB -> recent_params -> list post.
Variable pb_add : PB -> add_params -> add_response * PB.
Variable github : gh_request -> gh_response.

(** [os.path.expanduser], and the files: the content of a path that
    exists (a readable regular file), [None] for a path that does not. *)
Variable expanduser : string -> string.
Variable files : string -> option string.

(** Lines 130-135. *)
Definition load_token (filename : string) : option string :=
  let token := None in
  match files (expanduser filename) with
  | Some f => Some (PyFile.strip (PyFile.readline f))
  | None => token
  end.

(** Lines 151-205. *)
Definition main (fuel : nat) (args : arguments) : M PB unit :=
  let gh_api_token :=
    py_or (arg_github_token args) (load_token "~/.github_oauth_token") in
  let pb_api_token :=
    py_or (arg_pinboard_token args) (load_token "~/.pinboard_api_token") in
  main_body pb_recent pb_add github fuel gh_api_token pb_api_token
            (arg_github_user args).

End Start.

(** ** More auxiliary definitions for the statements *)

(** A text of decimal digits. *)
Fixpoint digits_only (s : string) : bool :=
  match s with
  | EmptyString => true
  | String c s' => (PyStr.is_digit c && digits_only s')%bool
  end.

(** The answers [rs] to the retries numbered [retry], [retry + 1], ...
    after an answer of status [s], such that the retry loop goes through
    all of them and then leaves by its [else]: each one follows a 429 while
    retries are left and has the result code [done]; after the last one
    the status is not 429 or no retry is left. *)
Fixpoint goes_on (s : Z) (retry : Z) (rs : list add_response) : Prop :=
  match rs with
  | [] => s <> 429 \/ MAX_RETRIES < retry
  | x :: rs' =>
      s = 429 /\ retry <= MAX_RETRIES
      /\ not_done (result_code x) = false
      /\ goes_on (status_code x) (retry + 1) rs'
  end.

(** What every bookmark request of a run with the token [tok] carries. *)
Definition well_formed_request (tok : string) (p : add_params) : Prop :=
  p_replace p = "no" /\ p_auth_token p = tok /\ p_format p = "json"
  /\ exists rest, p_tags p = ("github-star" ++ rest)%string.

(** ** A home directory *)

Module Home.

(** [expanduser] for the user [octo]. *)
Definition expanduser (path : string) : string :=
  match path with
  | String "~" rest => ("/home/octo" ++ rest)%string
  | _ => path
  end.

(** A GitHub token file with spaces around the token and a second line;
    no Pinboard token file. *)
Definition github_only (path : string) : option string :=
  if (path =? "/home/octo/.github_oauth_token")%string
  then Some ("  gh0123 " ++ PyStr.newline ++ "second line" ++ PyStr.newline)%string
  else None.

(** An empty GitHub token file and a Pinboard token file. *)
Definition blank_github (path : string) : option string :=
  if (path =? "/home/octo/.github_oauth_token")%string then Some EmptyString
  else if (path =? "/home/octo/.pinboard_api_token")%string
       then Some ("octo:pb77" ++ PyStr.newline)%string
       else None.

(** No token file. *)
Definition nothing (path : string) : option string := None.

Definition no_options : arguments :=
  {| arg_github_token := None; arg_pinboard_token := None;
     arg_github_user := "octo" |}.

End Home.

(** ** Rate-limited accounts *)

Module Limited.

Definition accepted : add_response :=
  {| result_code := "done"; status_code := 200 |}.

(** Rate-limited twice, then the request is accepted. *)
Definition twice : Env.account :=
  {| Env.bookmarks := [];
     Env.forced := [Env.limited; Scenario.limited_but_done; accepted] |}.

(** Rate-limited for the first request and for all ten retries. *)
Definition throughout : Env.account :=
  {| Env.bookmarks := [];
     Env.forced := Env.limited :: repeat Scenario.limited_but_done 10 |}.

End Limited.

(** The error messages printed, in order. *)
Fixpoint errlines (evs : list event) : list errline :=
  match evs with
  | [] => []
  | PrintErr e :: evs' => e :: errlines evs'
  | _ :: evs' => errlines evs'
  end.

(** A fatal end: the last event is the one error message of the trace. *)
Definition fatal_trace (evs : list event) : Prop :=
  exists evs' e, evs = evs' ++ [PrintErr e] /\ errlines evs' = [].

(** A trace and a result agree on errors: the result is exit status 1 and
    the trace is fatal, or the result is another one and the trace has no
    error message. *)
Definition errors_agree {A} (evs : list event) (res : outcome + A) : Prop :=
  match res with
  | inl (Exited 1) => fatal_trace evs
  | _ => errlines evs = []
  end.

(** ** What a run does with the cursor *)

(** A run follows the direction [sort_dir] and the target [most_recent]:
    after the query for the most recent bookmark, answered [posts], it
    requests page 1 in that direction; every page is requested in that
    direction; every page answered with status 200 is followed by the
    publishing of what is kept of it for that target (all of it without a
    target), as far as the run gets; and the names handed to the publisher
    are those kept of the fetched pages, in order - all of them when the
    run returns or exits with status 0. *)
Definition follows_cursor {PB : Type}
    (pb_add : PB -> add_params -> add_response * PB)
    (github : gh_request -> gh_response) (headers : gh_headers)
    (tok : string) (sort_dir : string) (most_recent : option string)
    (posts : list post) (evs : list event) (out : outcome) : Prop :=
  (exists rest,
      evs = Recent (recent_query tok) posts :: Print InfoGetting
              :: Fetch (first_page headers sort_dir)
                       (github (first_page headers sort_dir)) :: rest)
  /\ Forall (fun qr => q_direction (fst qr) = sort_dir) (fetched evs)
  /\ (forall pre q r post_,
        evs = pre ++ Fetch q r :: post_ ->
        r_status r = 200 ->
        exists pb0 ev pb1 res tail,
          publish_all pb_add tok (kept most_recent (r_json r)) pb0
          = (ev, pb1, res)
          /\ post_ = ev ++ tail)
  /\ prefix_of (adding evs) (expected most_recent (fetched evs))
  /\ (out = Returned \/ out = Exited 0 ->
      adding evs = expected most_recent (fetched evs)).

(** ** The traces of two runs *)

Module Expected.

(** The request for a repository made by [Env.repo]. *)
Definition request (s : star) : add_params :=
  {| p_description := full_name s;
     p_url := html_url s;
     p_extended := Some "A repository";
     p_tags := "github-star python";
     p_replace := "no";
     p_auth_token := Scenario.tok;
     p_format := "json" |}.

(** Publishing [s] when Pinboard accepts it at once. *)
Definition published (s : star) : list event :=
  [Print (InfoAdding (full_name s)); Add (request s) Limited.accepted; Sleep 3].

Definition page (sort_dir : string) (n : nat) : gh_request :=
  page_request Env.headers sort_dir n.

(** A first run on [Scenario.two_pages]. *)
Definition first_run : list event :=
  [Recent (recent_query Scenario.tok) []; Print InfoGetting;
   Fetch (page "asc" 1) (Scenario.two_pages (page "asc" 1))]
    ++ published Scenario.x ++ published Scenario.y
    ++ [Fetch (page "asc" 2) (Scenario.two_pages (page "asc" 2))]
    ++ published Scenario.b ++ published Scenario.a.

Definition after_first_run : Env.account :=
  {| Env.bookmarks :=
       map Env.bookmark_of [Scenario.a; Scenario.b; Scenario.y; Scenario.x];
     Env.forced := [] |}.

(** A run on [Scenario.one_page] that resumes at [Scenario.x]. *)
Definition resumed_run : list event :=
  [Recent (recent_query Scenario.tok) [Env.bookmark_of Scenario.x];
   Print InfoGetting;
   Fetch (page "desc" 1) (Scenario.one_page (page "desc" 1))]
    ++ published Scenario.a ++ published Scenario.b.

Definition after_resumed_run : Env.account :=
  {| Env.bookmarks := map Env.bookmark_of [Scenario.b; Scenario.a; Scenario.x];
     Env.forced := [] |}.

(** The thirtieth star of [Scenario.ten_pages], in the order of starring. *)
Definition thirtieth : star := Env.repo "octo/r30".

End Expected.

(** * Properties *)

Unset Implicit Arguments.

(** ** [filter_stars] *)

Section FilterStars.

Variable fn : string.

Let hit (s : star) : bool := same_name (full_name s) fn.

Lemma filter_from_miss (stars rest : list star) (i : nat) :
  (forall s, In s rest -> hit s = false) ->
  filter_from stars fn i rest = (stars, false).
Proof.
  revert i. induction rest as [|s rest IH]; intros i Hmiss; simpl.
  - reflexivity.
  - fold (hit s). rewrite (Hmiss s (or_introl eq_refl)).
    apply IH. intros x Hx. apply Hmiss. now right.
Qed.

Lemma filter_from_hit (stars mid tl : list star) (s : star) (i : nat) :
  (forall x, In x mid -> hit x = false) ->
  hit s = true ->
  filter_from stars fn i (mid ++ s :: tl)
  = (firstn (i + List.length mid) stars, true).
Proof.
  revert i. induction mid as [|x mid IH]; intros i Hmiss Hs; simpl.
  - fold (hit s). rewrite Hs. now rewrite Nat.add_0_r.
  - fold (hit x). rewrite (Hmiss x (or_introl eq_refl)).
    rewrite IH; auto.
    + now rewrite Nat.add_succ_r.
    + intros y Hy. apply Hmiss. now right.
Qed.

Lemma nth_error_cut (A : Type) (l : list A) (i : nat) (a : A) :
  nth_error l i = Some a ->
  l = firstn i l ++ a :: skipn (S i) l /\ List.length (firstn i l) = i.
Proof.
  revert i. induction l as [|x l IH]; intros [|i] H; simpl in *; try discriminate.
  - inversion H. auto.
  - destruct (IH i H) as [E L]. split; [now rewrite <- E | now rewrite L].
Qed.

End FilterStars.

(** A case variation of the target does not change the comparison. *)
Lemma same_name_lower (a b b' : string) :
  PyStr.lower b' = PyStr.lower b -> same_name a b' = same_name a b.
Proof. unfold same_name. now intros ->. Qed.

Lemma filter_from_lower (stars rest : list star) (fn fn' : string) (i : nat) :
  PyStr.lower fn' = PyStr.lower fn ->
  filter_from stars fn' i rest = filter_from stars fn i rest.
Proof.
  intros E. revert i. induction rest as [|s rest IH]; intros i; simpl.
  - reflexivity.
  - rewrite (same_name_lower _ _ _ E). now rewrite IH.
Qed.

(** C3.  [filter_stars] cuts the page at the first entry whose [full_name]
    equals the target when both are lower-cased: with [i] the index of that
    entry it returns the [i] entries before it and [True]; when no entry
    matches it returns the page as it is and [False]; and the answer is the
    same for every case variation of the target. *)
Theorem filter_stars_first_match (stars : list star) (fn : string) :
  (forall i s,
      nth_error stars i = Some s ->
      same_name (full_name s) fn = true ->
      (forall j s', (j < i)%nat -> nth_error stars j = Some s' ->
                    same_name (full_name s') fn = false) ->
      filter_stars stars fn = (firstn i stars, true))
  /\ ((forall s, In s stars -> same_name (full_name s) fn = false) ->
      filter_stars stars fn = (stars, false))
  /\ (forall fn', PyStr.lower fn' = PyStr.lower fn ->
                  filter_stars stars fn' = filter_stars stars fn).
Proof.
  repeat split.
  - intros i s Hnth Hs Hbefore. unfold filter_stars.
    destruct (nth_error_cut _ _ _ _ Hnth) as [E L].
    assert (Hcut : filter_from stars fn 0 stars
                   = filter_from stars fn 0 (firstn i stars ++ s :: skipn (S i) stars))
      by now rewrite <- E.
    rewrite Hcut, filter_from_hit; auto.
    + simpl. now rewrite L.
    + intros x Hx. apply In_nth_error in Hx. destruct Hx as [j Hj].
      assert (Hlt : (j < i)%nat).
      { rewrite <- L. apply nth_error_Some. now rewrite Hj. }
      apply (Hbefore j x Hlt).
      rewrite nth_error_firstn in Hj.
      destruct (Nat.ltb_spec j i); [assumption | lia].
  - intros Hmiss. now apply filter_from_miss.
  - intros fn' E. now apply filter_from_lower.
Qed.

(** The page [A, B, C, D] with the identifier of [C], in another case. *)
Example filter_stars_abcd :
  let page := map Env.repo ["o/A"; "o/B"; "o/C"; "o/D"] in
  filter_stars page "O/c" = (map Env.repo ["o/A"; "o/B"], true)
  /\ filter_stars page "o/E" = (page, false).
Proof. split; reflexivity. Qed.

(** ** [add_bookmark] *)

(** The fields of the request, for every repository for which the request
    gets built, and the repositories for which it does not. *)
Lemma add_bookmark_params_fields (g : star) (tok : string) :
  match add_bookmark_params g tok with
  | inr p =>
      p_description p = full_name g
      /\ p_url p = html_url g
      /\ (PyStr.truthy (homepage g) = false -> p_extended p = description g)
      /\ (PyStr.truthy (homepage g) = true ->
          exists d h, description g = Some d /\ homepage g = Some h
                      /\ p_extended p = Some (d ++ homepage_note h)%string)
      /\ (PyStr.truthy (language g) = false -> p_tags p = "github-star")
      /\ (PyStr.truthy (language g) = true ->
          exists l, language g = Some l
                    /\ p_tags p = ("github-star" ++ " " ++ PyStr.lower l)%string)
      /\ p_replace p = "no"
      /\ p_auth_token p = tok
      /\ p_format p = "json"
  | inl e =>
      e = TypeError /\ description g = None /\ PyStr.truthy (homepage g) = true
  end.
Proof.
  unfold add_bookmark_params, extended_of, tags_of.
  destruct g as [fnm url d h l]; simpl.
  destruct h as [h|]; simpl.
  - destruct (negb (h =? "")%string) eqn:Hh.
    + destruct d as [d|]; simpl.
      * repeat split; try discriminate.
        -- intros _. now exists d, h.
        -- destruct l as [l|]; simpl; [|reflexivity].
           destruct (negb (l =? "")%string); [discriminate | reflexivity].
        -- destruct l as [l|]; simpl; [|discriminate].
           destruct (negb (l =? "")%string); [|discriminate].
           intros _. now exists l.
      * auto.
    + repeat split; try discriminate.
      * destruct l as [l|]; simpl; [|reflexivity].
        destruct (negb (l =? "")%string); [discriminate | reflexivity].
      * destruct l as [l|]; simpl; [|discriminate].
        destruct (negb (l =? "")%string); [|discriminate].
        intros _. now exists l.
  - repeat split; try discriminate.
    + destruct l as [l|]; simpl; [|reflexivity].
      destruct (negb (l =? "")%string); [discriminate | reflexivity].
    + destruct l as [l|]; simpl; [|discriminate].
      destruct (negb (l =? "")%string); [|discriminate].
      intros _. now exists l.
Qed.

(** C8.  For the repository [undescribed] no request is built:
    [add_bookmark] raises [TypeError] at line 64, where the claimed request
    would carry the homepage line as its [extended] field. *)
Theorem add_bookmark_params_undescribed (tok : string) :
  add_bookmark_params undescribed tok = inl TypeError.
Proof. reflexivity. Qed.

(** ** The monad *)

Section Traces.

Variable PB : Type.
Variable pb_recent : PB -> recent_params -> list post.
Variable pb_add : PB -> add_params -> add_response * PB.
Variable github : gh_request -> gh_response.

Lemma fetched_app (a b : list event) : fetched (a ++ b) = fetched a ++ fetched b.
Proof.
  induction a as [|e a IH]; simpl; [reflexivity|].
  destruct e; simpl; now rewrite ?IH.
Qed.

Lemma adding_app (a b : list event) : adding (a ++ b) = adding a ++ adding b.
Proof.
  induction a as [|e a IH]; simpl; [reflexivity|].
  destruct e as [| | |[]| |]; simpl; now rewrite ?IH.
Qed.

Lemma sleeps_app (a b : list event) : sleeps (a ++ b) = sleeps a ++ sleeps b.
Proof.
  induction a as [|e a IH]; simpl; [reflexivity|].
  destruct e; simpl; now rewrite ?IH.
Qed.

Lemma adds_app (a b : list event) : adds (a ++ b) = adds a ++ adds b.
Proof.
  induction a as [|e a IH]; simpl; [reflexivity|].
  destruct e; simpl; now rewrite ?IH.
Qed.

(** *** [add_bookmark] and the retry loop, one step at a time *)

Lemma add_bookmark_sent tok g p pb resp pb1 :
  add_bookmark_params g tok = inr p ->
  pb_add pb p = (resp, pb1) ->
  add_bookmark pb_add g tok pb
  = ([Add p resp], pb1, inr (result_code resp, status_code resp)).
Proof. unfold add_bookmark. now intros -> ->. Qed.

Lemma add_bookmark_raised tok g e pb :
  add_bookmark_params g tok = inl e ->
  add_bookmark pb_add g tok pb = ([], pb, inl (Raised e)).
Proof. unfold add_bookmark. now intros ->. Qed.

(** The [else] of the [while]: the loop condition is false. *)
Lemma retry_loop_else fuel tok g r s retry pb :
  ((s =? 429) && (retry <=? MAX_RETRIES))%bool = false ->
  retry_loop pb_add (S fuel) tok g r s retry pb
  = ((if not_done r then [Print (WarnResult r)] else []) ++ [Sleep SLEEP_TIME],
     pb, inr tt).
Proof.
  intros C. cbn [retry_loop]. rewrite C.
  unfold bind, when, print, sleep, emit, ret.
  now destruct (not_done r).
Qed.

(** One pass of the body of the [while]. *)
Lemma retry_loop_body fuel tok g r s retry pb p resp pb1 :
  ((s =? 429) && (retry <=? MAX_RETRIES))%bool = true ->
  add_bookmark_params g tok = inr p ->
  pb_add pb p = (resp, pb1) ->
  retry_loop pb_add (S fuel) tok g r s retry pb
  = let ev := [Print WarnRateLimited; Sleep (SLEEP_TIME * retry); Add p resp] in
    if not_done (result_code resp)
    then (ev ++ [PrintErr (ErrPinboard (result_code resp))], pb1, inl (Exited 1))
    else let '(ev2, pb2, res) :=
           retry_loop pb_add fuel tok g (result_code resp) (status_code resp)
                      (retry + 1) pb1 in
         (ev ++ ev2, pb2, res).
Proof.
  intros C Hp Ha. cbn [retry_loop]. rewrite C.
  unfold bind at 1. unfold print, emit.
  unfold bind at 1. unfold sleep, emit.
  unfold bind at 1. rewrite (add_bookmark_sent _ _ _ _ _ _ Hp Ha).
  unfold bind at 1. unfold when.
  destruct (not_done (result_code resp)).
  - reflexivity.
  - unfold ret.
    destruct (retry_loop pb_add fuel tok g (result_code resp)
                (status_code resp) (retry + 1) pb1) as [[ev2 pb2] res].
    reflexivity.
Qed.

Lemma retry_loop_raise fuel tok g r s retry pb e :
  ((s =? 429) && (retry <=? MAX_RETRIES))%bool = true ->
  add_bookmark_params g tok = inl e ->
  retry_loop pb_add (S fuel) tok g r s retry pb
  = ([Print WarnRateLimited; Sleep (SLEEP_TIME * retry)], pb, inl (Raised e)).
Proof.
  intros C Hp. cbn [retry_loop]. rewrite C.
  unfold bind at 1. unfold print, emit.
  unfold bind at 1. unfold sleep, emit.
  unfold bind at 1. now rewrite (add_bookmark_raised _ _ _ _ Hp).
Qed.

Lemma publish_star_sent tok g pb p resp pb1 :
  add_bookmark_params g tok = inr p ->
  pb_add pb p = (resp, pb1) ->
  publish_star pb_add tok g pb
  = let '(ev, pb2, res) :=
      retry_loop pb_add (S (Z.to_nat MAX_RETRIES)) tok g (result_code resp)
                 (status_code resp) 1 pb1 in
    (Print (InfoAdding (full_name g)) :: Add p resp :: ev, pb2, res).
Proof.
  intros Hp Ha. unfold publish_star.
  unfold bind at 1. unfold print, emit.
  unfold bind at 1. rewrite (add_bookmark_sent _ _ _ _ _ _ Hp Ha).
  destruct (retry_loop pb_add (S (Z.to_nat MAX_RETRIES)) tok g (result_code resp)
              (status_code resp) 1 pb1) as [[ev pb2] res].
  reflexivity.
Qed.

Lemma publish_star_raised tok g pb e :
  add_bookmark_params g tok = inl e ->
  publish_star pb_add tok g pb
  = ([Print (InfoAdding (full_name g))], pb, inl (Raised e)).
Proof.
  intros Hp. unfold publish_star.
  unfold bind at 1. unfold print, emit.
  unfold bind at 1. now rewrite (add_bookmark_raised _ _ _ _ Hp).
Qed.

Lemma publish_all_cons tok g rest pb :
  publish_all pb_add tok (g :: rest) pb
  = match publish_star pb_add tok g pb with
    | (ev, pb1, inl o) => (ev, pb1, inl o)
    | (ev, pb1, inr _) =>
        let '(ev2, pb2, res) := publish_all pb_add tok rest pb1 in
        (ev ++ ev2, pb2, res)
    end.
Proof.
  cbn [publish_all]. unfold bind at 1.
  destruct (publish_star pb_add tok g pb) as [[ev pb1] [o|[]]]; [reflexivity|].
  now destruct (publish_all pb_add tok rest pb1) as [[ev2 pb2] res].
Qed.

(** *** A publish attempt that is not rate-limited *)

(** C7.  When the first answer to [posts/add] has a status other than 429
    and a result code other than [done], publishing the star prints one
    warning, pauses [SLEEP_TIME] and returns to the [for] loop, which
    goes on with the next star; the run is not ended. *)
Theorem warning_when_not_rate_limited tok g p pb resp pb1 :
  add_bookmark_params g tok = inr p ->
  pb_add pb p = (resp, pb1) ->
  status_code resp <> 429 ->
  not_done (result_code resp) = true ->
  let ev := [Print (InfoAdding (full_name g)); Add p resp;
             Print (WarnResult (result_code resp)); Sleep SLEEP_TIME] in
  publish_star pb_add tok g pb = (ev, pb1, inr tt)
  /\ forall rest,
      publish_all pb_add tok (g :: rest) pb
      = let '(ev2, pb2, res) := publish_all pb_add tok rest pb1 in
        (ev ++ ev2, pb2, res).
Proof.
  intros Hp Ha Hs Hc ev.
  assert (E : publish_star pb_add tok g pb = (ev, pb1, inr tt)).
  { rewrite (publish_star_sent _ _ _ _ _ _ Hp Ha).
    rewrite retry_loop_else.
    - now rewrite Hc.
    - apply andb_false_iff. left. now apply Z.eqb_neq. }
  split; [exact E|].
  intros rest. now rewrite publish_all_cons, E.
Qed.

(** *** A repository without description *)

(** C10.  For a repository whose description is [null] and whose homepage
    is present, [add_bookmark] builds no request: line 64 raises
    [TypeError]; publishing the star ends the run with that exception,
    after the [Adding] line and before any request to Pinboard. *)
Theorem publish_raises_without_description tok g :
  description g = None ->
  PyStr.truthy (homepage g) = true ->
  add_bookmark_params g tok = inl TypeError
  /\ forall pb,
      publish_star pb_add tok g pb
      = ([Print (InfoAdding (full_name g))], pb, inl (Raised TypeError)).
Proof.
  intros Hd Hh.
  assert (E : add_bookmark_params g tok = inl TypeError).
  { unfold add_bookmark_params, extended_of. rewrite Hh, Hd.
    now destruct (homepage g). }
  split; [exact E|]. intros pb. now apply publish_star_raised.
Qed.

(** *** The retry loop *)

Lemma pb_replies_inv n pb p l pb' :
  pb_replies pb_add (S n) pb p = (l, pb') ->
  exists r pb1 l',
    pb_add pb p = (r, pb1) /\ l = r :: l' /\ pb_replies pb_add n pb1 p = (l', pb').
Proof.
  cbn [pb_replies]. destruct (pb_add pb p) as [r pb1] eqn:Ha.
  destruct (pb_replies pb_add n pb1 p) as [l' pb2] eqn:El.
  intros E. inversion E; subst. now exists r, pb1, l'.
Qed.

Lemma sleeps_retry_events p rs k :
  sleeps (retry_events p (Z.of_nat k) rs)
  = map (fun j => SLEEP_TIME * Z.of_nat j) (seq k (List.length rs)).
Proof.
  revert k. induction rs as [|r rs IH]; intros k; simpl; [reflexivity|].
  f_equal. replace (Z.of_nat k + 1) with (Z.of_nat (S k)) by lia. apply IH.
Qed.

Lemma adds_retry_events p rs k :
  adds (retry_events p k rs) = map (pair p) rs.
Proof.
  revert k. induction rs as [|r rs IH]; intros k; simpl; [reflexivity|].
  f_equal. apply IH.
Qed.

(** While the answers are 429 with the result code [done] the loop goes
    on; the first answer with another result code ends the run. *)
Lemma retry_loop_until_bad_code tok g p :
  add_bookmark_params g tok = inr p ->
  forall rs fuel r retry pb rl pb',
    (List.length rs < fuel)%nat ->
    retry + Z.of_nat (List.length rs) <= MAX_RETRIES ->
    pb_replies pb_add (S (List.length rs)) pb p = (rs ++ [rl], pb') ->
    Forall limited_done rs ->
    not_done (result_code rl) = true ->
    retry_loop pb_add fuel tok g r 429 retry pb
    = (retry_events p retry (rs ++ [rl])
         ++ [PrintErr (ErrPinboard (result_code rl))],
       pb', inl (Exited 1)).
Proof.
  intros Hp. induction rs as [|x rs IH];
    intros fuel r retry pb rl pb' Hfuel Hmax Hrep Hall Hbad;
    (destruct fuel as [|fuel]; [simpl in Hfuel; lia|]);
    apply pb_replies_inv in Hrep;
    destruct Hrep as (r1 & pb1 & l' & Ha & El & Hrep);
    assert (C : ((429 =? 429) && (retry <=? MAX_RETRIES))%bool = true)
      by (apply andb_true_iff; split; [reflexivity | apply Z.leb_le; lia]);
    rewrite (retry_loop_body _ _ _ _ _ _ _ _ _ _ C Hp Ha); cbv zeta.
  - simpl in Hrep, El. inversion Hrep; subst. inversion El; subst.
    now rewrite Hbad.
  - simpl in El. inversion El; subst r1 l'.
    inversion Hall as [|? ? [Hx1 Hx2] Hall']; subst.
    rewrite Hx2, Hx1.
    rewrite (IH fuel (result_code x) (retry + 1) pb1 rl pb'); auto.
    + simpl in Hfuel. lia.
    + simpl List.length in Hmax. lia.
Qed.

(** X19.  When the first attempt is answered 429 and the retries [rs]
    are answered 429 with the result code [done], a next retry, not later
    than the last allowed one, whose result code is not [done] ends the
    run with exit status 1, whatever its status: that is after
    [length rs + 1] retries, with the pauses [SLEEP_TIME * 1], ...,
    [SLEEP_TIME * (length rs + 1)]. *)
Theorem retries_end_at_first_bad_code tok g p pb r0 rs rl pb' :
  add_bookmark_params g tok = inr p ->
  pb_replies pb_add (S (S (List.length rs))) pb p = (r0 :: rs ++ [rl], pb') ->
  status_code r0 = 429 ->
  Forall limited_done rs ->
  Z.of_nat (List.length rs) < MAX_RETRIES ->
  not_done (result_code rl) = true ->
  exists evs,
    publish_star pb_add tok g pb = (evs, pb', inl (Exited 1))
    /\ evs = Print (InfoAdding (full_name g)) :: Add p r0
               :: retry_events p 1 (rs ++ [rl])
               ++ [PrintErr (ErrPinboard (result_code rl))]
    /\ List.length (adds evs) = S (S (List.length rs))
    /\ sleeps evs = backoff (S (List.length rs)).
Proof.
  intros Hp Hrep H0 Hall Hlen Hbad.
  apply pb_replies_inv in Hrep.
  destruct Hrep as (r1 & pb1 & l' & Ha & El & Hrep).
  inversion El; subst r1 l'.
  eexists. split; [|split; [reflexivity|]].
  - rewrite (publish_star_sent _ _ _ _ _ _ Hp Ha), H0.
    rewrite (retry_loop_until_bad_code _ _ _ Hp rs _ _ _ _ rl pb'); auto.
    + unfold MAX_RETRIES in *. lia.
    + lia.
  - split.
    + simpl. rewrite adds_app, adds_retry_events. simpl.
      rewrite length_app, length_map, length_app. simpl. lia.
    + simpl. rewrite sleeps_app. simpl. rewrite app_nil_r.
      change 1 with (Z.of_nat 1). rewrite sleeps_retry_events.
      rewrite length_app. simpl. now rewrite Nat.add_1_r.
Qed.

(** *** What publishing leaves in the trace *)

Lemma add_bookmark_params_exn g tok e :
  add_bookmark_params g tok = inl e -> e = TypeError.
Proof.
  intros H. generalize (add_bookmark_params_fields g tok).
  rewrite H. tauto.
Qed.

Lemma retry_loop_trace tok g fuel r s retry pb evs pb' res :
  retry_loop pb_add fuel tok g r s retry pb = (evs, pb', res) ->
  (0 < fuel)%nat ->
  MAX_RETRIES + 1 - retry < Z.of_nat fuel ->
  fetched evs = [] /\ adding evs = []
  /\ (res = inr tt \/ res = inl (Exited 1) \/ res = inl (Raised TypeError)).
Proof.
  revert r s retry pb evs pb' res.
  induction fuel as [|fuel IH]; intros r s retry pb evs pb' res H Hpos Hfuel.
  - lia.
  - destruct ((s =? 429) && (retry <=? MAX_RETRIES))%bool eqn:C.
    + destruct (add_bookmark_params g tok) as [e|p] eqn:Hp.
      * rewrite (retry_loop_raise _ _ _ _ _ _ _ _ C Hp) in H.
        apply add_bookmark_params_exn in Hp. inversion H; subst. auto.
      * destruct (pb_add pb p) as [resp pb1] eqn:Ha.
        rewrite (retry_loop_body _ _ _ _ _ _ _ _ _ _ C Hp Ha) in H.
        cbv zeta in H. destruct (not_done (result_code resp)).
        -- inversion H; subst. auto.
        -- destruct (retry_loop pb_add fuel tok g (result_code resp)
                       (status_code resp) (retry + 1) pb1)
             as [[ev2 pb2] res2] eqn:E.
           inversion H; subst.
           apply andb_true_iff in C. destruct C as [_ C].
           apply Z.leb_le in C.
           destruct (IH _ _ _ _ _ _ _ E) as (F & A & O); [lia | lia |].
           simpl. auto.
    + rewrite (retry_loop_else _ _ _ _ _ _ _ C) in H.
      inversion H; subst. destruct (not_done r); simpl; auto.
Qed.

Lemma publish_star_trace tok g pb evs pb' res :
  publish_star pb_add tok g pb = (evs, pb', res) ->
  fetched evs = [] /\ adding evs = [full_name g]
  /\ (res = inr tt \/ res = inl (Exited 1) \/ res = inl (Raised TypeError)).
Proof.
  intros H. destruct (add_bookmark_params g tok) as [e|p] eqn:Hp.
  - rewrite (publish_star_raised _ _ _ _ Hp) in H.
    apply add_bookmark_params_exn in Hp. inversion H; subst. auto.
  - destruct (pb_add pb p) as [resp pb1] eqn:Ha.
    rewrite (publish_star_sent _ _ _ _ _ _ Hp Ha) in H.
    destruct (retry_loop pb_add (S (Z.to_nat MAX_RETRIES)) tok g
                (result_code resp) (status_code resp) 1 pb1)
      as [[ev pb2] res2] eqn:E.
    inversion H; subst.
    apply retry_loop_trace in E; [| lia | unfold MAX_RETRIES; simpl; lia].
    destruct E as (F & A & O). simpl. rewrite F, A. auto.
Qed.

Lemma prefix_of_nil {A} (l : list A) : prefix_of [] l.
Proof. now exists l. Qed.

Lemma prefix_of_refl {A} (l : list A) : prefix_of l l.
Proof. exists []. now rewrite app_nil_r. Qed.

Lemma prefix_of_app {A} (l a b : list A) :
  prefix_of a b -> prefix_of (l ++ a) (l ++ b).
Proof. intros [rest ->]. exists rest. now rewrite app_assoc. Qed.

(** The stars of the list are handed to the publisher in order, up to
    the one that ends the run, if any. *)
Lemma publish_all_trace tok stars pb evs pb' res :
  publish_all pb_add tok stars pb = (evs, pb', res) ->
  fetched evs = []
  /\ prefix_of (adding evs) (names stars)
  /\ (res = inr tt -> adding evs = names stars)
  /\ (res = inr tt \/ res = inl (Exited 1) \/ res = inl (Raised TypeError)).
Proof.
  revert pb evs pb' res.
  induction stars as [|g rest IH]; intros pb evs pb' res H.
  - inversion H; subst. simpl. repeat split; auto. apply prefix_of_nil.
  - rewrite publish_all_cons in H.
    destruct (publish_star pb_add tok g pb) as [[ev pb1] r1] eqn:E1.
    destruct (publish_star_trace _ _ _ _ _ _ E1) as (F1 & A1 & O1).
    destruct r1 as [o|[]].
    + inversion H; subst. rewrite F1, A1. repeat split.
      * exists (names rest). reflexivity.
      * discriminate.
      * destruct O1 as [O1|O1]; [discriminate | now right].
    + destruct (publish_all pb_add tok rest pb1) as [[ev2 pb2] r2] eqn:E2.
      inversion H; subst.
      destruct (IH _ _ _ _ E2) as (F2 & P2 & A2 & O2).
      rewrite fetched_app, adding_app, F1, A1, F2. simpl.
      repeat split; auto.
      * now apply (prefix_of_app [full_name g]).
      * intros R. now rewrite (A2 R).
Qed.

(** *** The generator and the loop of [main], one step at a time *)

Section Loop.

Variable headers : gh_headers.
Variable sort_dir : string.
Variable tok : string.

Lemma loop_head_step page last pb :
  (py_le page last = false
   /\ @loop_head PB github headers sort_dir page last pb = ([], pb, inr None))
  \/ (py_le page last = true
      /\ let q := {| q_headers := headers; q_direction := sort_dir;
                     q_page := py_param page |} in
         @loop_head PB github headers sort_dir page last pb
         = ([Fetch q (github q)], pb,
            inr (Some (r_json (github q), r_status (github q),
                       GenYielded (github q) page last)))).
Proof.
  unfold loop_head. destruct (py_le page last); [right | left]; auto.
Qed.

Ltac by_loop_head page last pb :=
  destruct (loop_head_step page last pb) as [[_ E]|[_ E]];
  [ exists None; constructor; exact E
  | eexists (Some (_, _, _)); econstructor; [ | | | exact E]; reflexivity ].

Lemma gen_next_step g pb : exists o, @gen_step PB github headers sort_dir g pb o.
Proof.
  destruct g as [|r page last|].
  - by_loop_head (PyInt 1) (PyInt 1) pb.
  - destruct (r_link r) as [link|] eqn:Hl.
    + destruct (link_groups link) as [[page' last']|] eqn:Hg.
      * destruct (loop_head_step (PyString page') (PyString last') pb)
          as [[_ E]|[_ E]].
        -- exists None. constructor. cbn [gen_next]. now rewrite Hl, Hg.
        -- eexists (Some (_, _, _)).
           econstructor; [ | | | cbn [gen_next]; rewrite Hl, Hg; exact E];
             reflexivity.
      * exists None. constructor. cbn [gen_next]. now rewrite Hl, Hg.
    + destruct (loop_head_step page last pb) as [[_ E]|[_ E]].
      -- exists None. constructor. cbn [gen_next]. now rewrite Hl.
      -- eexists (Some (_, _, _)).
         econstructor; [ | | | cbn [gen_next]; rewrite Hl; exact E];
           reflexivity.
  - exists None. now constructor.
Qed.

(** The generator has ended: so has the [for] loop. *)
Lemma main_loop_end fuel g most_recent hit pb :
  @gen_step PB github headers sort_dir g pb None ->
  main_loop pb_add github (S fuel) headers sort_dir tok g most_recent hit pb
  = ([], pb, inr tt).
Proof.
  intros H. inversion H as [E|]. cbn [main_loop].
  unfold bind at 1. now rewrite E.
Qed.

(** One pass of the body of the [for] loop. *)
Lemma main_loop_page fuel g most_recent hit pb q r g' :
  @gen_step PB github headers sort_dir g pb (Some (q, r, g')) ->
  main_loop pb_add github (S fuel) headers sort_dir tok g most_recent hit pb
  = if negb (r_status r =? 200)
    then ([Fetch q r; PrintErr (ErrGitHub (r_json r))], pb, inl (Exited 1))
    else
      let hit' := match most_recent with
                  | Some fn => snd (filter_stars (r_json r) fn)
                  | None => hit
                  end in
      match publish_all pb_add tok (kept most_recent (r_json r)) pb with
      | (ev, pb1, inl o) => (Fetch q r :: ev, pb1, inl o)
      | (ev, pb1, inr _) =>
          if hit' then (Fetch q r :: ev, pb1, inl (Exited 0))
          else
            let '(ev2, pb2, res) :=
              main_loop pb_add github fuel headers sort_dir tok g'
                        most_recent hit' pb1 in
            (Fetch q r :: ev ++ ev2, pb2, res)
      end.
Proof.
  intros H. inversion H as [|? ? ? _ _ _ E]; subst.
  assert (K : forall result h,
    bind (publish_all pb_add tok result)
         (fun _ => bind (when h (stop (Exited 0)))
            (fun _ => main_loop pb_add github fuel headers sort_dir tok g'
                        most_recent h)) pb
    = match publish_all pb_add tok result pb with
      | (ev, pb1, inl o) => (ev, pb1, inl o)
      | (ev, pb1, inr _) =>
          if h then (ev, pb1, inl (Exited 0))
          else
            let '(ev2, pb2, res) :=
              main_loop pb_add github fuel headers sort_dir tok g'
                        most_recent h pb1 in
            (ev ++ ev2, pb2, res)
      end).
  { intros result h. unfold bind at 1.
    destruct (publish_all pb_add tok result pb) as [[ev pb1] [o|[]]];
      [reflexivity|].
    unfold bind at 1. destruct h; unfold when.
    - unfold stop. now rewrite app_nil_r.
    - unfold ret.
      now destruct (main_loop pb_add github fuel headers sort_dir tok g'
                      most_recent false pb1) as [[ev2 pb2] res]. }
  cbn [main_loop]. unfold bind at 1. rewrite E. cbv beta iota.
  unfold bind at 1. unfold when at 1.
  destruct (negb (r_status r =? 200)).
  - reflexivity.
  - unfold ret at 1. cbv beta iota.
    destruct most_recent as [fn|]; simpl kept.
    + destruct (filter_stars (r_json r) fn) as [result h] eqn:Ef.
      simpl fst; simpl snd. rewrite K.
      destruct (publish_all pb_add tok result pb) as [[ev pb1] [o|[]]];
        [reflexivity|].
      destruct h; [reflexivity|].
      now destruct (main_loop pb_add github fuel headers sort_dir tok g'
                      (Some fn) false pb1) as [[ev2 pb2] res].
    + rewrite K.
      destruct (publish_all pb_add tok (r_json r) pb)
        as [[ev pb1] [o|[]]]; [reflexivity|].
      destruct hit; [reflexivity|].
      now destruct (main_loop pb_add github fuel headers sort_dir tok g'
                      None false pb1) as [[ev2 pb2] res].
Qed.

(** A request to GitHub found in a trace lies in the second part when
    the first part has none. *)
Lemma fetch_in_second_part ev ev2 pre q r post_ :
  fetched ev = [] ->
  ev ++ ev2 = pre ++ Fetch q r :: post_ ->
  exists pre', ev2 = pre' ++ Fetch q r :: post_.
Proof.
  revert pre. induction ev as [|e ev IH]; intros pre F H.
  - now exists pre.
  - destruct pre as [|e' pre]; simpl in H; inversion H; subst.
    + discriminate F.
    + apply (IH pre); [|assumption].
      destruct e'; simpl in F; (assumption || discriminate).
Qed.

Lemma no_fetch_in ev pre q r post_ :
  fetched ev = [] -> ev <> pre ++ Fetch q r :: post_.
Proof.
  intros F E. subst ev. rewrite fetched_app in F. simpl in F.
  now destruct (fetched pre).
Qed.

(** Every request to GitHub in the trace of the loop opens a pass of
    the loop, and the rest of the run is the loop from there. *)
Lemma main_loop_occurrence most_recent fuel g pb evs pb' res pre q r post_ :
  main_loop pb_add github fuel headers sort_dir tok g most_recent false pb
  = (evs, pb', res) ->
  evs = pre ++ Fetch q r :: post_ ->
  exists fuel0 g0 g1 pb0,
    @gen_step PB github headers sort_dir g0 pb0 (Some (q, r, g1))
    /\ main_loop pb_add github (S fuel0) headers sort_dir tok g0 most_recent
                 false pb0
       = (Fetch q r :: post_, pb', res).
Proof.
  revert g pb evs pb' res pre.
  induction fuel as [|fuel IH]; intros g pb evs pb' res pre H Hevs.
  - inversion H; subst. now destruct pre.
  - destruct (gen_next_step g pb) as [[[[q0 r0] g']|] Hg].
    + pose proof H as H0.
      rewrite (main_loop_page _ _ _ _ _ _ _ _ Hg) in H.
      destruct pre as [|e pre].
      * exists fuel, g, g', pb. simpl in Hevs. subst evs.
        assert (Eq : q0 = q /\ r0 = r).
        { destruct (negb (r_status r0 =? 200)).
          - inversion H. auto.
          - cbv zeta in H.
            destruct (publish_all _ _ _ _) as [[ev pb1] [o|[]]].
            + inversion H. auto.
            + destruct (match most_recent with
                        | Some fn => snd (filter_stars (r_json r0) fn)
                        | None => false end).
              * inversion H. auto.
              * destruct (main_loop _ _ _ _ _ _ _ _ _ _) as [[ev2 pb2] res2].
                inversion H. auto. }
        destruct Eq; subst. split; assumption.
      * simpl in Hevs. subst evs.
        destruct (negb (r_status r0 =? 200)).
        { inversion H as [[E1 E2 E3 E4]]. exfalso.
          apply (no_fetch_in [PrintErr (ErrGitHub (r_json r0))] pre q r post_);
            [reflexivity | assumption]. }
        cbv zeta in H.
        destruct (publish_all pb_add tok (kept most_recent (r_json r0)) pb)
          as [[ev pb1] r1] eqn:Ep.
        destruct (publish_all_trace _ _ _ _ _ _ Ep) as (F & _).
        destruct r1 as [o|[]].
        { inversion H as [[E1 E2 E3 E4]]. exfalso.
          now apply (no_fetch_in ev pre q r post_). }
        destruct (match most_recent with
                  | Some fn => snd (filter_stars (r_json r0) fn)
                  | None => false end) eqn:Eh.
        { inversion H as [[E1 E2 E3 E4]]. exfalso.
          now apply (no_fetch_in ev pre q r post_). }
        destruct (main_loop pb_add github fuel headers sort_dir tok g'
                    most_recent false pb1) as [[ev2 pb2] res2] eqn:Em.
        inversion H as [[E1 E2 E3 E4]]. subst.
        destruct (fetch_in_second_part _ _ _ _ _ _ F E2) as [pre' Ev2].
        apply (IH _ _ _ _ _ pre' Em Ev2).
    + rewrite (main_loop_end _ _ _ _ _ Hg) in H. inversion H; subst.
      now destruct pre.
Qed.

(** The pages are requested in the direction [sort_dir], and the names
    handed to the publisher are those kept of the fetched pages, in
    order: all of them when the loop ends by itself or at the target,
    a first part of them otherwise. *)
Lemma main_loop_trace most_recent fuel g pb evs pb' res :
  main_loop pb_add github fuel headers sort_dir tok g most_recent false pb
  = (evs, pb', res) ->
  Forall (fun qr => q_direction (fst qr) = sort_dir) (fetched evs)
  /\ prefix_of (adding evs) (expected most_recent (fetched evs))
  /\ (ending res = Returned \/ ending res = Exited 0 ->
      adding evs = expected most_recent (fetched evs)).
Proof.
  revert g pb evs pb' res.
  induction fuel as [|fuel IH]; intros g pb evs pb' res H.
  - inversion H; subst. simpl. repeat split; auto. apply prefix_of_nil.
  - destruct (gen_next_step g pb) as [[[[q r] g']|] Hg].
    + rewrite (main_loop_page _ _ _ _ _ _ _ _ Hg) in H.
      assert (Hq : q_direction q = sort_dir) by now inversion Hg.
      destruct (negb (r_status r =? 200)).
      { inversion H; subst. simpl. repeat split.
        - now constructor.
        - apply prefix_of_nil.
        - intros [?|?]; discriminate. }
      cbv zeta in H.
      destruct (publish_all pb_add tok (kept most_recent (r_json r)) pb)
        as [[ev pb1] r1] eqn:Ep.
      destruct (publish_all_trace _ _ _ _ _ _ Ep) as (F & P & A & O).
      unfold expected. destruct r1 as [o|[]].
      { inversion H; subst. simpl. rewrite F. simpl. rewrite app_nil_r.
        repeat split.
        - now constructor.
        - assumption.
        - destruct O as [O|[O|O]]; inversion O; subst;
            intros [?|?]; discriminate. }
      destruct (match most_recent with
                | Some fn => snd (filter_stars (r_json r) fn)
                | None => false end) eqn:Eh.
      { inversion H; subst. simpl. rewrite F. simpl. rewrite app_nil_r.
        rewrite (A eq_refl). repeat split.
        - now constructor.
        - apply prefix_of_refl. }
      destruct (main_loop pb_add github fuel headers sort_dir tok g'
                  most_recent false pb1) as [[ev2 pb2] res2] eqn:Em.
      inversion H; subst.
      destruct (IH _ _ _ _ _ Em) as (D2 & P2 & A2).
      simpl. rewrite fetched_app, adding_app, F, (A eq_refl). simpl.
      repeat split.
      * now constructor.
      * now apply prefix_of_app.
      * intros R. fold (expected most_recent (fetched ev2)).
        now rewrite (A2 R).
    + rewrite (main_loop_end _ _ _ _ _ Hg) in H. inversion H; subst.
      simpl. repeat split; auto. apply prefix_of_nil.
Qed.

(** A pass of the loop starts with the request of the page. *)
Lemma main_loop_starts_with_fetch fuel g most_recent hit pb q r g' evs pb' res :
  @gen_step PB github headers sort_dir g pb (Some (q, r, g')) ->
  main_loop pb_add github (S fuel) headers sort_dir tok g most_recent hit pb
  = (evs, pb', res) ->
  exists rest, evs = Fetch q r :: rest.
Proof.
  intros Hg H. rewrite (main_loop_page _ _ _ _ _ _ _ _ Hg) in H.
  destruct (negb (r_status r =? 200)).
  { inversion H. eexists. reflexivity. }
  cbv zeta in H.
  destruct (publish_all pb_add tok (kept most_recent (r_json r)) pb)
    as [[ev pb1] [o|[]]].
  { inversion H. eexists. reflexivity. }
  destruct (match most_recent with
            | Some fn => snd (filter_stars (r_json r) fn)
            | None => hit end).
  { inversion H. eexists. reflexivity. }
  destruct (main_loop pb_add github fuel headers sort_dir tok g' most_recent
              _ pb1) as [[ev2 pb2] res2].
  inversion H. eexists. reflexivity.
Qed.

(** After a page answered with status 200, the pass goes on with the
    publishing of what is kept of the page. *)
Lemma main_loop_page_publishes fuel g most_recent hit pb q r g' post_ pb' res :
  @gen_step PB github headers sort_dir g pb (Some (q, r, g')) ->
  r_status r = 200 ->
  main_loop pb_add github (S fuel) headers sort_dir tok g most_recent hit pb
  = (Fetch q r :: post_, pb', res) ->
  exists ev pb1 r1 tail,
    publish_all pb_add tok (kept most_recent (r_json r)) pb = (ev, pb1, r1)
    /\ post_ = ev ++ tail.
Proof.
  intros Hg Hs H. rewrite (main_loop_page _ _ _ _ _ _ _ _ Hg) in H.
  rewrite Hs in H. simpl negb in H. cbv iota zeta in H.
  destruct (publish_all pb_add tok (kept most_recent (r_json r)) pb)
    as [[ev pb1] r1] eqn:Ep.
  exists ev, pb1, r1.
  destruct r1 as [o|[]].
  { inversion H. exists []. now rewrite app_nil_r. }
  destruct (match most_recent with
            | Some fn => snd (filter_stars (r_json r) fn)
            | None => hit end).
  { inversion H. exists []. now rewrite app_nil_r. }
  destruct (main_loop pb_add github fuel headers sort_dir tok g' most_recent
              _ pb1) as [[ev2 pb2] res2].
  inversion H. now exists ev2.
Qed.

End Loop.

(** *** The whole synchronisation *)

(** Lines 174-182: the direction and the target come from the most
    recent bookmark. *)
Lemma sync_unfold fuel headers tok pb :
  sync pb_recent pb_add github fuel headers tok pb
  = let posts := pb_recent pb (recent_query tok) in
    let '(sort_dir, most_recent) :=
      match posts with
      | [] => ("asc", None)
      | p :: _ => ("desc", Some (post_description p))
      end in
    let '(ev, pb', res) :=
      main_loop pb_add github fuel headers sort_dir tok GenStart most_recent
                false pb in
    (Recent (recent_query tok) posts :: Print InfoGetting :: ev, pb', res).
Proof.
  unfold sync. unfold bind at 1. unfold get_most_recent_bookmark.
  fold (recent_query tok).
  destruct (pb_recent pb (recent_query tok)) as [|p rest];
    cbv beta iota zeta delta [resolve_cursor];
    unfold bind at 1; unfold print, emit;
    destruct (main_loop _ _ _ _ _ _ _ _ _ _) as [[ev pb'] res]; reflexivity.
Qed.

Lemma run_sync_inv fuel headers tok pb evs pb' out :
  run (sync pb_recent pb_add github fuel headers tok) pb = (evs, pb', out) ->
  exists sort_dir most_recent ev res,
    (sort_dir, most_recent)
    = match pb_recent pb (recent_query tok) with
      | [] => ("asc", None)
      | p :: _ => ("desc", Some (post_description p))
      end
    /\ main_loop pb_add github fuel headers sort_dir tok GenStart most_recent
                 false pb = (ev, pb', res)
    /\ evs = Recent (recent_query tok) (pb_recent pb (recent_query tok))
               :: Print InfoGetting :: ev
    /\ out = ending res.
Proof.
  unfold run. rewrite sync_unfold. cbv zeta.
  destruct (match pb_recent pb (recent_query tok) with
            | [] => ("asc", None)
            | p :: _ => ("desc", Some (post_description p))
            end) as [sort_dir most_recent].
  destruct (main_loop pb_add github fuel headers sort_dir tok GenStart
              most_recent false pb) as [[ev pb1] res] eqn:E.
  intros H. exists sort_dir, most_recent, ev, res.
  destruct res as [o|u]; inversion H; subst; auto.
Qed.

(** A request to GitHub in the trace of a run opens a pass of the loop
    of [main]. *)
Lemma sync_occurrence fuel headers tok pb evs pb' out pre q r post_ :
  run (sync pb_recent pb_add github fuel headers tok) pb = (evs, pb', out) ->
  evs = pre ++ Fetch q r :: post_ ->
  exists sort_dir most_recent fuel0 g0 g1 pb0 res,
    (sort_dir, most_recent)
    = match pb_recent pb (recent_query tok) with
      | [] => ("asc", None)
      | p :: _ => ("desc", Some (post_description p))
      end
    /\ @gen_step PB github headers sort_dir g0 pb0 (Some (q, r, g1))
    /\ main_loop pb_add github (S fuel0) headers sort_dir tok g0 most_recent
                 false pb0 = (Fetch q r :: post_, pb', res)
    /\ out = ending res.
Proof.
  intros H Hevs.
  destruct (run_sync_inv _ _ _ _ _ _ _ H)
    as (sort_dir & most_recent & ev & res & Hc & Hm & He & Ho).
  rewrite He in Hevs.
  destruct (fetch_in_second_part
              [Recent (recent_query tok) (pb_recent pb (recent_query tok));
               Print InfoGetting] ev pre q r post_ eq_refl Hevs) as [pre' Hev].
  destruct (main_loop_occurrence _ _ _ _ _ _ _ _ _ _ _ _ _ _ Hm Hev)
    as (fuel0 & g0 & g1 & pb0 & Hg & Hl).
  exists sort_dir, most_recent, fuel0, g0, g1, pb0, res. auto.
Qed.

(** C9.  In every run, a page of the star listing answered with a status
    other than 200 is followed by the error message and nothing else,
    and the run ends with exit status 1: no entry of the page is
    published, no further page is requested, and nothing is written. *)
Theorem listing_error_is_fatal fuel headers tok pb evs pb' out pre q r post_ :
  run (sync pb_recent pb_add github fuel headers tok) pb = (evs, pb', out) ->
  evs = pre ++ Fetch q r :: post_ ->
  r_status r <> 200 ->
  post_ = [PrintErr (ErrGitHub (r_json r))]
  /\ out = Exited 1
  /\ adding post_ = [] /\ adds post_ = [] /\ fetched post_ = [].
Proof.
  intros H Hevs Hs.
  destruct (sync_occurrence _ _ _ _ _ _ _ _ _ _ _ H Hevs)
    as (sort_dir & most_recent & fuel0 & g0 & g1 & pb0 & res & _ & Hg & Hl & Ho).
  rewrite (main_loop_page _ _ _ _ _ _ _ _ _ _ _ Hg) in Hl.
  apply Z.eqb_neq in Hs. rewrite Hs in Hl. simpl in Hl.
  inversion Hl; subst. auto.
Qed.


(** The first [next()] on the generator requests page 1. *)
Lemma gen_start_step headers sort_dir pb :
  @gen_step PB github headers sort_dir GenStart pb
    (Some (first_page headers sort_dir, github (first_page headers sort_dir),
           GenYielded (github (first_page headers sort_dir))
                      (PyInt 1) (PyInt 1))).
Proof. now constructor. Qed.

(** C4.  In every run that gets to the loop of [main]: with no bookmark
    tagged [github-star] in Pinboard the run follows the direction [asc]
    without a target - page 1 and every further page are requested in
    ascending direction and every page answered with status 200 is
    published whole, no filter being applied; with such a bookmark it
    follows the direction [desc] with the [description] of the most
    recent one as target - the pages are requested in descending
    direction and of each page what [filter_stars] keeps for that target
    is published. *)
Theorem cursor_resolution fuel headers tok pb evs pb' out :
  run (sync pb_recent pb_add github (S fuel) headers tok) pb = (evs, pb', out) ->
  match pb_recent pb (recent_query tok) with
  | [] => follows_cursor pb_add github headers tok "asc" None [] evs out
  | p :: rest =>
      follows_cursor pb_add github headers tok "desc"
                     (Some (post_description p)) (p :: rest) evs out
  end.
Proof.
  intros H.
  assert (K : forall sort_dir most_recent,
             (sort_dir, most_recent)
             = match pb_recent pb (recent_query tok) with
               | [] => ("asc", None)
               | p :: _ => ("desc", Some (post_description p))
               end ->
             follows_cursor pb_add github headers tok sort_dir most_recent
                            (pb_recent pb (recent_query tok)) evs out).
  { intros sort_dir most_recent Hc.
    destruct (run_sync_inv _ _ _ _ _ _ _ H)
      as (sort_dir' & most_recent' & ev & res & Hc' & Hm & He & Ho).
    rewrite <- Hc in Hc'. inversion Hc'; subst sort_dir' most_recent'.
    destruct (main_loop_trace _ _ _ _ _ _ _ _ _ _ Hm) as (D & P & A).
    destruct (main_loop_starts_with_fetch _ _ _ _ _ _ _ _ _ _ _ _ _ _
                (gen_start_step headers sort_dir pb) Hm) as [rest Hev].
    unfold follows_cursor. repeat split.
    - exists rest. now rewrite He, Hev.
    - rewrite He. exact D.
    - intros pre q r post_ Hevs Hs.
      destruct (sync_occurrence _ _ _ _ _ _ _ _ _ _ _ H Hevs)
        as (sd & mr & fuel0 & g0 & g1 & pb0 & res0 & Hc0 & Hg & Hl & _).
      rewrite <- Hc in Hc0. inversion Hc0; subst sd mr.
      destruct (main_loop_page_publishes _ _ _ _ _ _ _ _ _ _ _ _ _ _ Hg Hs Hl)
        as (ev0 & pb1 & r1 & tail & Hp & Hpost).
      now exists pb0, ev0, pb1, r1, tail.
    - rewrite He. exact P.
    - rewrite He. intros [R|R]; apply A; [left | right]; congruence. }
  destruct (pb_recent pb (recent_query tok)) as [|p rest]; now apply K.
Qed.

(** A run whose target heads page 1 of the descending listing requests
    that page only, sends no bookmark and ends with exit status 0, leaving
    Pinboard as it was. *)
Lemma target_on_top_nothing_to_send fuel headers tok pb p rest s page :
  pb_recent pb (recent_query tok) = p :: rest ->
  r_status (github (first_page headers "desc")) = 200 ->
  r_json (github (first_page headers "desc")) = s :: page ->
  same_name (full_name s) (post_description p) = true ->
  run (sync pb_recent pb_add github (S fuel) headers tok) pb
  = ([Recent (recent_query tok) (p :: rest); Print InfoGetting;
      Fetch (first_page headers "desc") (github (first_page headers "desc"))],
     pb, Exited 0).
Proof.
  intros Hp Hs Hj Hn.
  unfold run. rewrite sync_unfold, Hp. cbv zeta iota beta.
  rewrite (main_loop_page _ _ _ _ _ _ _ _ _ _ _ (gen_start_step headers "desc" pb)).
  rewrite Hs. simpl negb. cbv iota zeta.
  unfold kept, filter_stars. rewrite Hj. cbn [filter_from].
  rewrite Hn. reflexivity.
Qed.

End Traces.

(** ** The page generator *)

(** A match of the pattern of line 108 has two groups. *)
Lemma digits_then_groups k acc s g :
  Re.digits_then k acc s = Some g ->
  exists d s' g', g = d :: g' /\ k s' = Some g'.
Proof.
  revert acc g. induction s as [|c s IH]; intros acc g H; simpl in H.
  - discriminate.
  - destruct (PyStr.is_digit c); [|discriminate].
    destruct (Re.digits_then k (acc ++ String c "") s) as [g0|] eqn:E.
    + inversion H; subst. now apply (IH _ _ E).
    + destruct (k s) as [g'|] eqn:Ek; [|discriminate].
      inversion H; subst. now exists (acc ++ String c "")%string, s, g'.
Qed.

Lemma dotstar_then_groups k s g :
  Re.dotstar_then k s = Some g -> exists s', k s' = Some g.
Proof.
  induction s as [|c s IH]; intros H; simpl in H.
  - now exists EmptyString.
  - destruct (Ascii.eqb c (ascii_of_nat 10)).
    + now exists (String c s).
    + destruct (Re.dotstar_then k s) as [g0|] eqn:E.
      * inversion H; subst. now apply IH.
      * now exists (String c s).
Qed.

Lemma link_pattern_groups s g :
  Re.search link_pattern s = Some g -> exists page last, g = [page; last].
Proof.
  assert (M : forall t, Re.match_here link_pattern t = Some g ->
                        exists page last, g = [page; last]).
  { intros t H. unfold link_pattern in H. cbn [Re.match_here] in H.
    destruct (Re.strip "page=" t) as [t1|]; [|discriminate].
    apply digits_then_groups in H. destruct H as (d1 & t2 & g1 & -> & H).
    destruct (Re.strip _ t2) as [t3|]; [|discriminate].
    apply dotstar_then_groups in H. destruct H as (t4 & H).
    destruct (Re.strip "page=" t4) as [t5|]; [|discriminate].
    apply digits_then_groups in H. destruct H as (d2 & t6 & g2 & -> & H).
    destruct (Re.strip _ t6) as [t7|]; [|discriminate].
    inversion H; subst. now exists d1, d2. }
  induction s as [|c s IH]; intros H; cbn [Re.search] in H.
  - destruct (Re.match_here link_pattern EmptyString) eqn:E; [|discriminate].
    inversion H; subst. now apply (M EmptyString).
  - destruct (Re.match_here link_pattern (String c s)) eqn:E.
    + inversion H; subst. now apply (M (String c s)).
    + now apply IH.
Qed.

Lemma seq_from_one n : (1 <= n)%nat -> seq 1 n = 1%nat :: seq 2 (n - 1).
Proof. destruct n as [|n]; [lia|]. simpl. now rewrite Nat.sub_0_r. Qed.

Section Pager.

Variable PB : Type.
Variable github : gh_request -> gh_response.
Variable headers : gh_headers.
Variable sort_dir : string.

Let req := page_request headers sort_dir.
Let fetch_of (n : nat) : event := Fetch (req n) (github (req n)).
Let yield_of (n : nat) : list star * Z :=
  (r_json (github (req n)), r_status (github (req n))).

Lemma drain_end fuel g (pb : PB) :
  gen_next github headers sort_dir g pb = ([], pb, inr None) ->
  drain github (S fuel) headers sort_dir g pb = ([], pb, inr []).
Proof. intros E. cbn [drain]. unfold bind at 1. now rewrite E. Qed.

Lemma drain_yield fuel g (pb : PB) q r g' :
  gen_next github headers sort_dir g pb
  = ([Fetch q r], pb, inr (Some (r_json r, r_status r, g'))) ->
  drain github (S fuel) headers sort_dir g pb
  = let '(ev, pb', res) := drain github fuel headers sort_dir g' pb in
    (Fetch q r :: ev, pb',
     match res with
     | inl o => inl o
     | inr rest => inr ((r_json r, r_status r) :: rest)
     end).
Proof.
  intros E. cbn [drain]. unfold bind at 1. rewrite E. cbv beta iota.
  unfold bind at 1.
  destruct (drain github fuel headers sort_dir g' pb) as [[ev pb'] [o|rest]];
    [reflexivity|].
  unfold ret. now rewrite app_nil_r.
Qed.

(** Two page numbers of one digit compare as strings the way they do
    as numbers. *)
Lemma page_name_le a b :
  (1 <= a)%nat -> (a <= b)%nat -> (b <= 9)%nat ->
  py_le (PyString (page_name a)) (PyString (page_name b)) = true.
Proof.
  intros Ha Hab Hb.
  assert (Ia : In a (seq 1 9)) by (apply in_seq; lia).
  assert (Ib : In b (seq 1 9)) by (apply in_seq; lia).
  simpl in Ia, Ib.
  repeat (destruct Ia as [<-|Ia]; [|]); try contradiction;
    repeat (destruct Ib as [<-|Ib]; [|]); try contradiction;
    try reflexivity; lia.
Qed.

Section UpToNine.

Variable last_page : nat.
Hypothesis Hrange : (1 <= last_page <= 9)%nat.

(** Before the last page the [link] header names the next page and
    the last one; on the last page it has no [next] relation. *)
Hypothesis Hnext :
  forall n, (1 <= n < last_page)%nat ->
    exists link,
      r_link (github (req n)) = Some link
      /\ link_groups link = Some (page_name (S n), page_name last_page).
Hypothesis Hlast :
  exists link,
    r_link (github (req last_page)) = Some link /\ link_groups link = None.

Lemma drain_from_page m n page last (pb : PB) :
  (1 <= n)%nat -> (n + m = last_page)%nat ->
  drain github (S m) headers sort_dir (GenYielded (github (req n)) page last) pb
  = (map fetch_of (seq (S n) m), pb, inr (map yield_of (seq (S n) m))).
Proof.
  revert n page last. induction m as [|m IH]; intros n page last Hn Hm.
  - apply drain_end. cbn [gen_next].
    replace n with last_page by lia.
    destruct Hlast as (link & -> & ->). reflexivity.
  - rewrite (drain_yield _ _ _ (req (S n)) (github (req (S n)))
               (GenYielded (github (req (S n))) (PyString (page_name (S n)))
                           (PyString (page_name last_page)))).
    + rewrite IH by lia. reflexivity.
    + cbn [gen_next]. destruct (Hnext n) as (link & -> & ->); [lia|].
      unfold loop_head. rewrite page_name_le by lia. reflexivity.
Qed.

(** X17.  On a listing of at most nine pages the generator requests the
    pages 1, ..., [last_page] once each, in this order, and ends. *)
Lemma drain_visits_pages_up_to_nine (pb : PB) :
  drain github (S last_page) headers sort_dir GenStart pb
  = (map fetch_of (seq 1 last_page), pb, inr (map yield_of (seq 1 last_page))).
Proof.
  assert (D := drain_from_page (last_page - 1) 1 (PyInt 1) (PyInt 1) pb
                 (le_n 1) ltac:(lia)).
  replace (S (last_page - 1)) with last_page in D by lia.
  rewrite (drain_yield _ _ _ (req 1) (github (req 1))
             (GenYielded (github (req 1)) (PyInt 1) (PyInt 1))).
  - rewrite D, (seq_from_one last_page) by lia. reflexivity.
  - reflexivity.
Qed.

End UpToNine.

(** X18.  Without a [link] header on page 1 (a listing of one page) the
    generator requests page 1 again and again. *)
Lemma drain_without_link_header fuel (pb : PB) :
  r_link (github (req 1)) = None ->
  drain github fuel headers sort_dir GenStart pb
  = (repeat (fetch_of 1) fuel, pb, inl OutOfFuel).
Proof.
  intros Hl.
  assert (L : forall f,
             drain github f headers sort_dir
                   (GenYielded (github (req 1)) (PyInt 1) (PyInt 1)) pb
             = (repeat (fetch_of 1) f, pb, inl OutOfFuel)).
  { induction f as [|f IH]; [reflexivity|].
    rewrite (drain_yield _ _ _ (req 1) (github (req 1))
               (GenYielded (github (req 1)) (PyInt 1) (PyInt 1))).
    - now rewrite IH.
    - cbn [gen_next]. now rewrite Hl. }
  destruct fuel as [|f]; [reflexivity|].
  rewrite (drain_yield _ _ _ (req 1) (github (req 1))
             (GenYielded (github (req 1)) (PyInt 1) (PyInt 1))).
  - now rewrite L.
  - reflexivity.
Qed.

End Pager.

Example nine_pages_all_requested :
  let d := drain (PB:=unit) (Env.listing (Scenario.numbered 270) 30) 20
                 Env.headers "asc" GenStart tt in
  map (fun qr => q_page (fst qr)) (fetched (fst (fst d)))
  = ["1"; "2"; "3"; "4"; "5"; "6"; "7"; "8"; "9"]
  /\ match snd d with inr pages => List.length pages = 9%nat | inl _ => False end.
Proof. vm_compute. split; reflexivity. Qed.

(** ** The page generator on a long listing *)

(** The loop test of line 101 after line 111 has run on page 1 of ten. *)
Example two_is_not_before_ten :
  py_le (PyString "2") (PyString "10") = false
  /\ py_le (PyInt 2) (PyInt 10) = true.
Proof. split; reflexivity. Qed.

(** C1.  On a listing of ten pages the generator requests page 1 and ends,
    although the [link] header of that page names page 2 as next and page
    10 as last: line 111 leaves strings in [page] and [last], and
    ['2' <= '10'] is false. *)
Theorem ten_pages_only_first_requested :
  let d := drain (PB:=unit) Scenario.ten_pages 20 Env.headers "asc" GenStart tt in
  option_map link_groups (r_link (Scenario.ten_pages (first_page Env.headers "asc")))
  = Some (Some ("2", "10"))
  /\ map (fun qr => q_page (fst qr)) (fetched (fst (fst d))) = ["1"]
  /\ snd d = inr [(firstn 30 (Scenario.numbered 271), 200)].
Proof. vm_compute. repeat split. Qed.

(** ** The theorems on the scenarios *)

Ltac computed := vm_compute; reflexivity.

(** The page [x, y, b, a] cut at [b]. *)
Lemma filter_stars_first_match_witness :
  filter_stars [Scenario.x; Scenario.y; Scenario.b; Scenario.a] "OCTO/Beta"
  = ([Scenario.x; Scenario.y], true).
Proof.
  apply (proj1 (filter_stars_first_match
                  [Scenario.x; Scenario.y; Scenario.b; Scenario.a] "OCTO/Beta")
           2%nat Scenario.b).
  - reflexivity.
  - reflexivity.
  - intros [|[|j]] s' Hj E; simpl in E; inversion E; subst; try reflexivity; lia.
Defined.

Lemma warning_when_not_rate_limited_witness :
  publish_star Env.add Scenario.tok Scenario.a Scenario.refusing
  = ([Print (InfoAdding "octo/alpha");
      Add Scenario.a_params Scenario.missing_url;
      Print (WarnResult "missing url"); Sleep 3],
     Scenario.empty, inr tt).
Proof.
  destruct (warning_when_not_rate_limited Env.account Env.add Scenario.tok
              Scenario.a Scenario.a_params Scenario.refusing
              Scenario.missing_url Scenario.empty) as [E _].
  - reflexivity.
  - reflexivity.
  - discriminate.
  - reflexivity.
  - exact E.
Defined.

Lemma publish_raises_without_description_witness :
  publish_star Env.add Scenario.tok undescribed Scenario.empty
  = ([Print (InfoAdding "octocat/Spoon-Knife")], Scenario.empty,
     inl (Raised TypeError)).
Proof.
  destruct (publish_raises_without_description Env.account Env.add Scenario.tok
              undescribed) as [_ E].
  - reflexivity.
  - reflexivity.
  - apply E.
Defined.

Lemma retries_end_at_first_bad_code_witness :
  exists evs,
    publish_star Env.add Scenario.tok Scenario.a Scenario.limited_to_the_end
    = (evs, Scenario.empty, inl (Exited 1))
    /\ List.length (adds evs) = 11%nat
    /\ sleeps evs = [3; 6; 9; 12; 15; 18; 21; 24; 27; 30].
Proof.
  destruct (retries_end_at_first_bad_code Env.account Env.add Scenario.tok
              Scenario.a Scenario.a_params Scenario.limited_to_the_end Env.limited
              (repeat Scenario.limited_but_done 9) Env.limited Scenario.empty)
    as (evs & E & _ & L & S).
  - reflexivity.
  - computed.
  - reflexivity.
  - repeat constructor.
  - reflexivity.
  - reflexivity.
  - exists evs. repeat split; assumption.
Defined.

(** When every retry is answered 429 with the result code [done], the
    loop gives up after [MAX_RETRIES] retries and the run goes on. *)
Lemma retries_used_up_run_goes_on :
  let acct := {| Env.bookmarks := [];
                 Env.forced := Env.limited :: repeat Scenario.limited_but_done 10 |} in
  let res := publish_all Env.add Scenario.tok [Scenario.a; Scenario.b] acct in
  snd res = inr tt
  /\ sleeps (fst (fst res)) = [3; 6; 9; 12; 15; 18; 21; 24; 27; 30; 3; 3]
  /\ adding (fst (fst res)) = ["octo/alpha"; "octo/beta"].
Proof. vm_compute. repeat split. Qed.

Lemma triple_eta {A B C} (t : A * B * C) : t = (fst (fst t), snd (fst t), snd t).
Proof. now destruct t as [[? ?] ?]. Qed.

Example first_run_publishes_oldest_first :
  let res := run (sync Env.recent Env.add Scenario.two_pages 5 Env.headers
                       Scenario.tok) Scenario.empty in
  snd res = Returned
  /\ map (fun qr => (q_direction (fst qr), q_page (fst qr))) (fetched (fst (fst res)))
     = [("asc", "1"); ("asc", "2")]
  /\ adding (fst (fst res))
     = ["octo/xi"; "octo/ypsilon"; "octo/beta"; "octo/alpha"].
Proof. vm_compute. repeat split. Qed.

(** A listing that answers 503. *)
Lemma listing_error_is_fatal_witness :
  let q := first_page Env.headers "asc" in
  let r := Env.failing 503 q in
  let pre := [Recent (recent_query Scenario.tok) []; Print InfoGetting] in
  let post_ := [PrintErr (ErrGitHub [])] in
  run (sync Env.recent Env.add (Env.failing 503) 5 Env.headers Scenario.tok)
      Scenario.empty
  = (pre ++ Fetch q r :: post_, Scenario.empty, Exited 1)
  /\ r_status r <> 200
  /\ post_ = [PrintErr (ErrGitHub (r_json r))]
  /\ adding post_ = [] /\ adds post_ = [] /\ fetched post_ = [].
Proof.
  intros q r pre post_.
  assert (E : run (sync Env.recent Env.add (Env.failing 503) 5 Env.headers
                        Scenario.tok) Scenario.empty
              = (pre ++ Fetch q r :: post_, Scenario.empty, Exited 1))
    by reflexivity.
  assert (S : r_status r <> 200) by discriminate.
  destruct (listing_error_is_fatal Env.account Env.recent Env.add
              (Env.failing 503) 5 Env.headers Scenario.tok Scenario.empty
              _ _ _ pre q r post_ E eq_refl S) as (P & _ & A & B & F).
  repeat split; assumption.
Defined.

Example resumed_run_stops_at_target :
  let res := run (sync Env.recent Env.add Scenario.one_page 5 Env.headers
                       Scenario.tok) Scenario.resumed in
  snd res = Exited 0
  /\ adding (fst (fst res)) = ["octo/alpha"; "octo/beta"]
  /\ map post_description (Env.bookmarks (snd (fst res)))
     = ["octo/beta"; "octo/alpha"; "octo/xi"].
Proof. vm_compute. repeat split. Qed.

Example second_run_after_resumed_run :
  let run1 := run (sync Env.recent Env.add Scenario.one_page 5 Env.headers
                        Scenario.tok) Scenario.resumed in
  let run2 := run (sync Env.recent Env.add Scenario.one_page 5 Env.headers
                        Scenario.tok) (snd (fst run1)) in
  adds (fst (fst run2))
  = [(Scenario.a_params,
      {| result_code := "item already exists"; status_code := 200 |})]
  /\ snd run2 = Exited 0.
Proof. vm_compute. repeat split. Qed.


(** ** The cursor on the scenarios *)

(** A first run on two pages, and a run that resumes at [x]. *)
Lemma cursor_resolution_witness :
  (run (sync Env.recent Env.add Scenario.two_pages 5 Env.headers Scenario.tok)
       Scenario.empty
   = (Expected.first_run, Expected.after_first_run, Returned)
   /\ follows_cursor Env.add Scenario.two_pages Env.headers Scenario.tok
                     "asc" None [] Expected.first_run Returned)
  /\ (run (sync Env.recent Env.add Scenario.one_page 5 Env.headers Scenario.tok)
          Scenario.resumed
      = (Expected.resumed_run, Expected.after_resumed_run, Exited 0)
      /\ follows_cursor Env.add Scenario.one_page Env.headers Scenario.tok
                        "desc" (Some "octo/xi") [Env.bookmark_of Scenario.x]
                        Expected.resumed_run (Exited 0)).
Proof.
  assert (E1 : run (sync Env.recent Env.add Scenario.two_pages 5 Env.headers
                         Scenario.tok) Scenario.empty
               = (Expected.first_run, Expected.after_first_run, Returned))
    by (vm_compute; reflexivity).
  assert (E2 : run (sync Env.recent Env.add Scenario.one_page 5 Env.headers
                         Scenario.tok) Scenario.resumed
               = (Expected.resumed_run, Expected.after_resumed_run, Exited 0))
    by (vm_compute; reflexivity).
  split; (split; [assumption|]).
  - exact (cursor_resolution Env.account Env.recent Env.add Scenario.two_pages
             4 Env.headers Scenario.tok Scenario.empty _ _ _ E1).
  - exact (cursor_resolution Env.account Env.recent Env.add Scenario.one_page
             4 Env.headers Scenario.tok Scenario.resumed _ _ _ E2).
Defined.


(** ** Two defects on the scenarios *)

(** C2.  With every answer of Pinboard a 429 whose result code is not
    [done], publishing a star sleeps [SLEEP_TIME] once, retries once and
    ends the run with exit status 1 at line 198: the retry that is still
    rate-limited is taken for a failure, where [MAX_RETRIES] and the
    growing pauses of line 195 provide for ten retries. *)
Theorem limited_again_is_fatal_at_once :
  publish_star Env.add Scenario.tok Scenario.a Scenario.always_limited
  = ([Print (InfoAdding "octo/alpha"); Add Scenario.a_params Env.limited;
      Print WarnRateLimited; Sleep 3; Add Scenario.a_params Env.limited;
      PrintErr (ErrPinboard "too many requests")],
     {| Env.bookmarks := []; Env.forced := repeat Env.limited 9 |},
     inl (Exited 1)).
Proof. vm_compute. reflexivity. Qed.

(** C6.  On a listing of ten pages a first run bookmarks the 30 stars of
    page 1 of the ascending listing and returns; the bookmark it created
    last, that of the thirtieth star, is then the most recent one in
    Pinboard.  The second run, on the same listing, takes it as target,
    finds it nowhere on page 1 of the descending listing and creates 30
    more bookmarks. *)
Theorem second_run_on_ten_pages_creates_bookmarks :
  let sync_ten :=
    sync Env.recent Env.add Scenario.ten_pages 5 Env.headers Scenario.tok in
  let run1 := run sync_ten Scenario.empty in
  let store1 := snd (fst run1) in
  let run2 := run sync_ten store1 in
  let store2 := snd (fst run2) in
  (snd run1 = Returned
   /\ map (fun qr => q_page (fst qr)) (fetched (fst (fst run1))) = ["1"]
   /\ List.length (created (fst (fst run1))) = 30%nat
   /\ last_created (fst (fst run1)) = Some (Expected.request Expected.thirtieth)
   /\ Env.recent store1 (recent_query Scenario.tok)
      = [Env.bookmark_of Expected.thirtieth])
  /\ (snd run2 = Returned
      /\ map (fun qr => (q_direction (fst qr), q_page (fst qr)))
             (fetched (fst (fst run2))) = [("desc", "1")]
      /\ List.length (created (fst (fst run2))) = 30%nat
      /\ List.length (Env.bookmarks store1) = 30%nat
      /\ List.length (Env.bookmarks store2) = 60%nat).
Proof. vm_compute. repeat split. Qed.

(** * Further properties *)

(** ** [filter_stars]: what is kept *)

Lemma filter_from_kept (stars : list star) (fn : string) (pre rest : list star) :
  stars = pre ++ rest ->
  (forall s, In s pre -> same_name (full_name s) fn = false) ->
  let res := filter_from stars fn (List.length pre) rest in
  prefix_of (fst res) stars
  /\ (forall s, In s (fst res) -> same_name (full_name s) fn = false)
  /\ (snd res = true <-> exists s, In s stars /\ same_name (full_name s) fn = true)
  /\ (snd res = false -> fst res = stars).
Proof.
  revert pre. induction rest as [|x rest IH]; intros pre E Hpre; simpl.
  - rewrite app_nil_r in E. subst pre. repeat split.
    + apply prefix_of_refl.
    + exact Hpre.
    + discriminate.
    + intros (s & Hs & Hm). rewrite (Hpre s Hs) in Hm. discriminate.
  - destruct (same_name (full_name x) fn) eqn:Hx.
    + simpl. subst stars. rewrite firstn_app, Nat.sub_diag, firstn_all.
      simpl. rewrite app_nil_r. repeat split.
      * now exists (x :: rest).
      * exact Hpre.
      * intros _. exists x. split; [|exact Hx]. apply in_or_app. right. now left.
      * discriminate.
    + assert (E' : stars = (pre ++ [x]) ++ rest) by now rewrite <- app_assoc.
      assert (Hpre' : forall s, In s (pre ++ [x]) ->
                                same_name (full_name s) fn = false).
      { intros s Hs. apply in_app_or in Hs. destruct Hs as [Hs|[<-|[]]]; auto. }
      specialize (IH (pre ++ [x]) E' Hpre').
      rewrite length_app in IH. simpl in IH. rewrite Nat.add_1_r in IH.
      exact IH.
Qed.

(** X1.  Whatever the page and the target, what [filter_stars] keeps is a
    first part of the page in which no entry has the name of the target
    (compared without case); it reports [True] exactly when some entry of
    the page has that name, and when it reports [False] it keeps the whole
    page. *)
Theorem filter_stars_keeps_new_stars (stars : list star) (fn : string) :
  prefix_of (fst (filter_stars stars fn)) stars
  /\ (forall s, In s (fst (filter_stars stars fn)) ->
                same_name (full_name s) fn = false)
  /\ (snd (filter_stars stars fn) = true
      <-> exists s, In s stars /\ same_name (full_name s) fn = true)
  /\ (snd (filter_stars stars fn) = false -> fst (filter_stars stars fn) = stars).
Proof.
  apply (filter_from_kept stars fn [] stars eq_refl).
  intros s [].
Qed.

(** ** The groups of the [link] pattern *)

Lemma digits_only_app (a b : string) :
  digits_only (a ++ b) = (digits_only a && digits_only b)%bool.
Proof.
  induction a as [|c a IH]; simpl; [reflexivity|].
  now rewrite IH, andb_assoc.
Qed.

Lemma digits_then_digits k acc s g :
  Re.digits_then k acc s = Some g ->
  digits_only acc = true ->
  exists d s' g',
    g = d :: g' /\ k s' = Some g' /\ digits_only d = true /\ d <> EmptyString.
Proof.
  revert acc g. induction s as [|c s IH]; intros acc g H Hacc; simpl in H.
  - discriminate.
  - destruct (PyStr.is_digit c) eqn:Hc; [|discriminate].
    assert (Hacc' : digits_only (acc ++ String c "") = true).
    { rewrite digits_only_app, Hacc. simpl. now rewrite Hc. }
    destruct (Re.digits_then k (acc ++ String c "") s) as [g0|] eqn:E.
    + inversion H; subst. now apply (IH _ _ E).
    + destruct (k s) as [g'|] eqn:Ek; [|discriminate].
      inversion H; subst. exists (acc ++ String c "")%string, s, g'.
      repeat split; auto. now destruct acc.
Qed.

(** X3.  Whatever the text of the [link] header, when the pattern of line
    108 matches, the two groups assigned to [page] and [last] are non-empty
    texts of decimal digits. *)
Theorem link_groups_are_numbers (link page last : string) :
  link_groups link = Some (page, last) ->
  digits_only page = true /\ page <> EmptyString
  /\ digits_only last = true /\ last <> EmptyString.
Proof.
  unfold link_groups.
  destruct (Re.search link_pattern link) as [g|] eqn:Es; [|discriminate].
  assert (M : forall t, Re.match_here link_pattern t = Some g ->
                        exists p l, g = [p; l]
                                    /\ digits_only p = true /\ p <> EmptyString
                                    /\ digits_only l = true /\ l <> EmptyString).
  { intros t H. unfold link_pattern in H. cbn [Re.match_here] in H.
    destruct (Re.strip "page=" t) as [t1|]; [|discriminate].
    apply digits_then_digits in H; [|reflexivity].
    destruct H as (d1 & t2 & g1 & -> & H & D1 & N1).
    destruct (Re.strip _ t2) as [t3|]; [|discriminate].
    apply dotstar_then_groups in H. destruct H as (t4 & H).
    destruct (Re.strip "page=" t4) as [t5|]; [|discriminate].
    apply digits_then_digits in H; [|reflexivity].
    destruct H as (d2 & t6 & g2 & -> & H & D2 & N2).
    destruct (Re.strip _ t6) as [t7|]; [|discriminate].
    inversion H; subst. now exists d1, d2. }
  assert (S : exists p l, g = [p; l]
                          /\ digits_only p = true /\ p <> EmptyString
                          /\ digits_only l = true /\ l <> EmptyString).
  { clear - Es M. induction link as [|c link IH]; cbn [Re.search] in Es.
    - destruct (Re.match_here link_pattern EmptyString) eqn:E; [|discriminate].
      inversion Es; subst. now apply (M EmptyString).
    - destruct (Re.match_here link_pattern (String c link)) eqn:E.
      + inversion Es; subst. now apply (M (String c link)).
      + now apply IH. }
  destruct S as (p & l & -> & Dp & Np & Dl & Nl).
  intros H. inversion H; subst. auto.
Qed.

Lemma link_groups_are_numbers_witness :
  digits_only "2" = true /\ "2" <> EmptyString
  /\ digits_only "10" = true /\ "10" <> EmptyString.
Proof.
  apply (link_groups_are_numbers (Env.link_header "desc" 1 10) "2" "10").
  vm_compute. reflexivity.
Defined.

(** ** Publishing one star, for every behaviour of Pinboard *)

Section Publishing.

Variable PB : Type.
Variable pb_recent : PB -> recent_params -> list post.
Variable pb_add : PB -> add_params -> add_response * PB.
Variable github : gh_request -> gh_response.

Lemma retry_loop_goes_on tok g p :
  add_bookmark_params g tok = inr p ->
  forall rs fuel r s retry pb pb',
    (rs = [] -> not_done r = false) ->
    (List.length rs < fuel)%nat ->
    pb_replies pb_add (List.length rs) pb p = (rs, pb') ->
    goes_on s retry rs ->
    retry_loop pb_add fuel tok g r s retry pb
    = (retry_events p retry rs ++ [Sleep SLEEP_TIME], pb', inr tt).
Proof.
  intros Hp. induction rs as [|x rs IH];
    intros fuel r s retry pb pb' Hr Hfuel Hrep Hgo;
    (destruct fuel as [|fuel]; [simpl in Hfuel; lia|]).
  - simpl in Hrep. inversion Hrep; subst pb'. simpl in Hgo.
    rewrite retry_loop_else.
    + now rewrite (Hr eq_refl).
    + apply andb_false_iff. destruct Hgo as [Hs|Hm].
      * left. now apply Z.eqb_neq.
      * right. apply Z.leb_gt. exact Hm.
  - simpl List.length in Hrep. apply pb_replies_inv in Hrep.
    destruct Hrep as (r1 & pb1 & l' & Ha & El & Hrep).
    inversion El; subst r1 l'.
    destruct Hgo as (Hs & Hm & Hx & Hgo).
    assert (C : ((s =? 429) && (retry <=? MAX_RETRIES))%bool = true).
    { apply andb_true_iff. split; [now apply Z.eqb_eq | now apply Z.leb_le]. }
    rewrite (retry_loop_body PB pb_add _ _ _ _ _ _ _ _ _ _ C Hp Ha). cbv zeta.
    rewrite Hx.
    rewrite (IH fuel (result_code x) (status_code x) (retry + 1) pb1 pb'); auto.
    simpl in Hfuel. lia.
Qed.

Lemma goes_on_after_limited rs tail retry :
  Forall limited_done rs ->
  retry + Z.of_nat (List.length rs) <= MAX_RETRIES + 1 ->
  goes_on 429 (retry + Z.of_nat (List.length rs)) tail ->
  goes_on 429 retry (rs ++ tail).
Proof.
  revert retry. induction rs as [|x rs IH]; intros retry Hall Hlen Htail.
  - simpl in *. now rewrite Z.add_0_r in Htail.
  - inversion Hall as [|? ? [Hx1 Hx2] Hall']; subst.
    simpl List.length in *. cbn [app goes_on]. rewrite Hx1.
    split; [reflexivity|]. split; [lia|]. split; [assumption|].
    apply IH; auto; [lia|].
    replace (retry + 1 + Z.of_nat (List.length rs))
      with (retry + Z.of_nat (S (List.length rs))) by lia.
    exact Htail.
Qed.

(** X4.  When the first answer and then the retries before the last one
    made are answered 429 (the retries with the result code [done]), and
    a retry not later than the last allowed one is answered with another
    status and the result code [done], publishing the star sends no
    further request, prints no warning about the result and no error,
    pauses [SLEEP_TIME] and lets the run go on; the pauses before the
    retries were [SLEEP_TIME * 1], [SLEEP_TIME * 2], ... *)
Theorem rate_limit_recovered tok g p pb r0 rs rk pb' :
  add_bookmark_params g tok = inr p ->
  pb_replies pb_add (S (S (List.length rs))) pb p = (r0 :: rs ++ [rk], pb') ->
  status_code r0 = 429 ->
  Forall limited_done rs ->
  Z.of_nat (List.length rs) < MAX_RETRIES ->
  status_code rk <> 429 ->
  not_done (result_code rk) = false ->
  publish_star pb_add tok g pb
  = (Print (InfoAdding (full_name g)) :: Add p r0
       :: retry_events p 1 (rs ++ [rk]) ++ [Sleep SLEEP_TIME],
     pb', inr tt)
  /\ sleeps (retry_events p 1 (rs ++ [rk]) ++ [Sleep SLEEP_TIME])
     = backoff (S (List.length rs)) ++ [SLEEP_TIME].
Proof.
  intros Hp Hrep H0 Hall Hlen Hk Hd.
  apply pb_replies_inv in Hrep.
  destruct Hrep as (r1 & pb1 & l' & Ha & El & Hrep).
  inversion El; subst r1 l'.
  split.
  - rewrite (publish_star_sent PB pb_add _ _ _ _ _ _ Hp Ha), H0.
    rewrite (retry_loop_goes_on tok g p Hp (rs ++ [rk]) _ (result_code r0) 429 1
               pb1 pb').
    + reflexivity.
    + intros E. now destruct rs.
    + rewrite length_app. simpl. unfold MAX_RETRIES in *. lia.
    + rewrite length_app. simpl. now rewrite Nat.add_1_r.
    + apply goes_on_after_limited; auto; [lia|].
      cbn [goes_on]. split; [reflexivity|]. split; [lia|].
      split; [assumption|]. now left.
  - rewrite sleeps_app. simpl.
    change 1 with (Z.of_nat 1). rewrite sleeps_retry_events.
    rewrite length_app. simpl. now rewrite Nat.add_1_r.
Qed.

(** X5.  When the first answer and all [MAX_RETRIES] retries are answered
    429, the retries with the result code [done], the loop gives up
    without an error: publishing the star has paused [SLEEP_TIME * k]
    before retry [k], pauses [SLEEP_TIME] once more and lets the run go
    on. *)
Theorem retries_used_up tok g p pb r0 rs pb' :
  add_bookmark_params g tok = inr p ->
  pb_replies pb_add (S (List.length rs)) pb p = (r0 :: rs, pb') ->
  status_code r0 = 429 ->
  Forall limited_done rs ->
  Z.of_nat (List.length rs) = MAX_RETRIES ->
  publish_star pb_add tok g pb
  = (Print (InfoAdding (full_name g)) :: Add p r0
       :: retry_events p 1 rs ++ [Sleep SLEEP_TIME],
     pb', inr tt)
  /\ sleeps (retry_events p 1 rs ++ [Sleep SLEEP_TIME])
     = backoff (Z.to_nat MAX_RETRIES) ++ [SLEEP_TIME].
Proof.
  intros Hp Hrep H0 Hall Hlen.
  apply pb_replies_inv in Hrep.
  destruct Hrep as (r1 & pb1 & l' & Ha & El & Hrep).
  inversion El; subst r1 l'.
  split.
  - rewrite (publish_star_sent PB pb_add _ _ _ _ _ _ Hp Ha), H0.
    rewrite (retry_loop_goes_on tok g p Hp rs _ (result_code r0) 429 1 pb1 pb').
    + reflexivity.
    + intros E. subst rs. simpl in Hlen. discriminate Hlen.
    + unfold MAX_RETRIES in *. lia.
    + exact Hrep.
    + rewrite <- (app_nil_r rs).
      apply goes_on_after_limited; auto; [lia|].
      cbn [goes_on]. right. lia.
  - replace (Z.to_nat MAX_RETRIES) with (List.length rs)
      by (rewrite <- Hlen; now rewrite Nat2Z.id).
    rewrite sleeps_app. simpl.
    change 1 with (Z.of_nat 1). now rewrite sleeps_retry_events.
Qed.

(** *** Bounds *)

Lemma retry_loop_bounds tok g fuel r s retry pb :
  1 <= retry ->
  let evs := fst (fst (retry_loop pb_add fuel tok g r s retry pb)) in
  Z.of_nat (List.length (adds evs)) <= Z.max 0 (MAX_RETRIES + 1 - retry)
  /\ Forall (fun n => 0 < n <= SLEEP_TIME * MAX_RETRIES) (sleeps evs).
Proof.
  revert r s retry pb. induction fuel as [|fuel IH]; intros r s retry pb Hr.
  - cbn [retry_loop stop fst adds sleeps List.length]. split; [lia | constructor].
  - assert (H3 : 0 < SLEEP_TIME <= SLEEP_TIME * MAX_RETRIES)
      by (unfold SLEEP_TIME, MAX_RETRIES; lia).
    destruct ((s =? 429) && (retry <=? MAX_RETRIES))%bool eqn:C.
    + assert (C2 : retry <= MAX_RETRIES).
      { apply andb_true_iff in C. destruct C as [_ C2]. now apply Z.leb_le. }
      assert (Hs : 0 < SLEEP_TIME * retry <= SLEEP_TIME * MAX_RETRIES)
        by (unfold SLEEP_TIME, MAX_RETRIES in *; lia).
      destruct (add_bookmark_params g tok) as [e|p] eqn:Hp.
      * rewrite (retry_loop_raise PB pb_add _ _ _ _ _ _ _ _ C Hp).
        cbn [fst adds sleeps List.length].
        split; [lia | now repeat constructor].
      * destruct (pb_add pb p) as [resp pb1] eqn:Ha.
        rewrite (retry_loop_body PB pb_add _ _ _ _ _ _ _ _ _ _ C Hp Ha).
        cbv zeta. destruct (not_done (result_code resp)).
        -- cbn [fst adds sleeps List.length app].
           split; [lia | now repeat constructor].
        -- assert (Hr' : 1 <= retry + 1) by lia.
           specialize (IH (result_code resp) (status_code resp) (retry + 1) pb1
                          Hr').
           destruct (retry_loop pb_add fuel tok g (result_code resp)
                       (status_code resp) (retry + 1) pb1) as [[ev2 pb2] res2].
           cbv zeta in IH. cbn [fst] in IH. destruct IH as [IH1 IH2].
           cbn [fst adds sleeps List.length app].
           split; [lia | now constructor].
    + rewrite (retry_loop_else PB pb_add _ _ _ _ _ _ _ C).
      destruct (not_done r); cbn [fst adds sleeps List.length app];
        (split; [lia | now repeat constructor]).
Qed.

(** X6.  Whatever Pinboard answers, publishing one star sends at most
    [MAX_RETRIES + 1] requests, and every pause it makes lasts between 1
    and [SLEEP_TIME * MAX_RETRIES] seconds. *)
Theorem publish_star_bounds tok g pb :
  let evs := fst (fst (publish_star pb_add tok g pb)) in
  (List.length (adds evs) <= S (Z.to_nat MAX_RETRIES))%nat
  /\ Forall (fun n => 0 < n <= SLEEP_TIME * MAX_RETRIES) (sleeps evs).
Proof.
  destruct (add_bookmark_params g tok) as [e|p] eqn:Hp.
  - rewrite (publish_star_raised PB pb_add _ _ _ _ Hp).
    cbv zeta. cbn [fst adds sleeps List.length].
    split; [lia | constructor].
  - destruct (pb_add pb p) as [resp pb1] eqn:Ha.
    rewrite (publish_star_sent PB pb_add _ _ _ _ _ _ Hp Ha).
    generalize (retry_loop_bounds tok g (S (Z.to_nat MAX_RETRIES))
                  (result_code resp) (status_code resp) 1 pb1 (Z.le_refl 1)).
    destruct (retry_loop pb_add (S (Z.to_nat MAX_RETRIES)) tok g
                (result_code resp) (status_code resp) 1 pb1)
      as [[ev pb2] res].
    cbv zeta. cbn [fst adds sleeps List.length]. intros [B1 B2].
    split; [|exact B2].
    unfold MAX_RETRIES in *. lia.
Qed.

Lemma retry_loop_ends_with_pause tok g fuel r s retry pb evs pb' :
  retry_loop pb_add fuel tok g r s retry pb = (evs, pb', inr tt) ->
  exists evs', evs = evs' ++ [Sleep SLEEP_TIME].
Proof.
  revert r s retry pb evs. induction fuel as [|fuel IH]; intros r s retry pb evs H.
  - discriminate H.
  - destruct ((s =? 429) && (retry <=? MAX_RETRIES))%bool eqn:C.
    + destruct (add_bookmark_params g tok) as [e|p] eqn:Hp.
      * rewrite (retry_loop_raise PB pb_add _ _ _ _ _ _ _ _ C Hp) in H.
        discriminate H.
      * destruct (pb_add pb p) as [resp pb1] eqn:Ha.
        rewrite (retry_loop_body PB pb_add _ _ _ _ _ _ _ _ _ _ C Hp Ha) in H.
        cbv zeta in H. destruct (not_done (result_code resp)); [discriminate H|].
        destruct (retry_loop pb_add fuel tok g (result_code resp)
                    (status_code resp) (retry + 1) pb1)
          as [[ev2 pb2] res2] eqn:E.
        inversion H; subst.
        destruct (IH _ _ _ _ _ E) as [evs' ->].
        exists ([Print WarnRateLimited; Sleep (SLEEP_TIME * retry); Add p resp]
                  ++ evs').
        now rewrite <- app_assoc.
    + rewrite (retry_loop_else PB pb_add _ _ _ _ _ _ _ C) in H.
      inversion H; subst. eexists. reflexivity.
Qed.

(** X7.  Whatever Pinboard answers, when publishing a star lets the run
    go on, the last thing it did was to pause [SLEEP_TIME]. *)
Theorem publish_star_ends_with_pause tok g pb evs pb' :
  publish_star pb_add tok g pb = (evs, pb', inr tt) ->
  exists evs', evs = evs' ++ [Sleep SLEEP_TIME].
Proof.
  intros H. destruct (add_bookmark_params g tok) as [e|p] eqn:Hp.
  - rewrite (publish_star_raised PB pb_add _ _ _ _ Hp) in H. discriminate H.
  - destruct (pb_add pb p) as [resp pb1] eqn:Ha.
    rewrite (publish_star_sent PB pb_add _ _ _ _ _ _ Hp Ha) in H.
    destruct (retry_loop pb_add (S (Z.to_nat MAX_RETRIES)) tok g
                (result_code resp) (status_code resp) 1 pb1)
      as [[ev pb2] res] eqn:E.
    inversion H; subst.
    destruct (retry_loop_ends_with_pause _ _ _ _ _ _ _ _ _ E) as [evs' ->].
    now exists (Print (InfoAdding (full_name g)) :: Add p resp :: evs').
Qed.

(** *** What a run sends *)

Lemma built_request_well_formed tok g p :
  add_bookmark_params g tok = inr p -> well_formed_request tok p.
Proof.
  intros H. generalize (add_bookmark_params_fields g tok). rewrite H.
  intros (_ & _ & _ & _ & T0 & T1 & R & A & F).
  repeat split; auto.
  destruct (PyStr.truthy (language g)).
  - destruct (T1 eq_refl) as (l & _ & ->). eexists. reflexivity.
  - rewrite (T0 eq_refl). now exists EmptyString.
Qed.

Lemma retry_loop_requests tok g fuel r s retry pb :
  Forall (fun pr => well_formed_request tok (fst pr))
         (adds (fst (fst (retry_loop pb_add fuel tok g r s retry pb)))).
Proof.
  revert r s retry pb. induction fuel as [|fuel IH]; intros r s retry pb.
  - constructor.
  - destruct ((s =? 429) && (retry <=? MAX_RETRIES))%bool eqn:C.
    + destruct (add_bookmark_params g tok) as [e|p] eqn:Hp.
      * rewrite (retry_loop_raise PB pb_add _ _ _ _ _ _ _ _ C Hp). constructor.
      * destruct (pb_add pb p) as [resp pb1] eqn:Ha.
        rewrite (retry_loop_body PB pb_add _ _ _ _ _ _ _ _ _ _ C Hp Ha).
        cbv zeta. pose proof (built_request_well_formed _ _ _ Hp) as W.
        destruct (not_done (result_code resp)).
        -- cbn [fst adds app]. constructor; [exact W | constructor].
        -- specialize (IH (result_code resp) (status_code resp) (retry + 1) pb1).
           destruct (retry_loop pb_add fuel tok g (result_code resp)
                       (status_code resp) (retry + 1) pb1) as [[ev2 pb2] res2].
           cbn [fst adds app] in *. constructor; [exact W | exact IH].
    + rewrite (retry_loop_else PB pb_add _ _ _ _ _ _ _ C).
      destruct (not_done r); constructor.
Qed.

Lemma publish_star_requests tok g pb :
  Forall (fun pr => well_formed_request tok (fst pr))
         (adds (fst (fst (publish_star pb_add tok g pb)))).
Proof.
  destruct (add_bookmark_params g tok) as [e|p] eqn:Hp.
  - rewrite (publish_star_raised PB pb_add _ _ _ _ Hp). constructor.
  - destruct (pb_add pb p) as [resp pb1] eqn:Ha.
    rewrite (publish_star_sent PB pb_add _ _ _ _ _ _ Hp Ha).
    generalize (retry_loop_requests tok g (S (Z.to_nat MAX_RETRIES))
                  (result_code resp) (status_code resp) 1 pb1).
    destruct (retry_loop pb_add (S (Z.to_nat MAX_RETRIES)) tok g
                (result_code resp) (status_code resp) 1 pb1)
      as [[ev pb2] res].
    cbn [fst adds]. intros W. constructor; [|exact W].
    exact (built_request_well_formed _ _ _ Hp).
Qed.

Lemma publish_all_requests tok stars pb :
  Forall (fun pr => well_formed_request tok (fst pr))
         (adds (fst (fst (publish_all pb_add tok stars pb)))).
Proof.
  revert pb. induction stars as [|g rest IH]; intros pb.
  - constructor.
  - rewrite publish_all_cons.
    generalize (publish_star_requests tok g pb).
    destruct (publish_star pb_add tok g pb) as [[ev pb1] [o|[]]]; simpl;
      [trivial|].
    intros W. specialize (IH pb1).
    destruct (publish_all pb_add tok rest pb1) as [[ev2 pb2] res2].
    simpl in *. rewrite adds_app. now apply Forall_app.
Qed.

Lemma main_loop_requests headers sort_dir tok most_recent fuel g hit pb :
  let evs := fst (fst (main_loop pb_add github fuel headers sort_dir tok g
                                 most_recent hit pb)) in
  Forall (fun pr => well_formed_request tok (fst pr)) (adds evs)
  /\ Forall (fun qr => q_headers (fst qr) = headers) (fetched evs).
Proof.
  revert g hit pb. induction fuel as [|fuel IH]; intros g hit pb.
  - simpl. split; constructor.
  - destruct (gen_next_step PB github headers sort_dir g pb) as [[[[q r] g']|] Hg].
    + rewrite (main_loop_page PB pb_add github headers sort_dir tok
                 _ _ _ _ _ _ _ _ Hg).
      assert (Hq : q_headers q = headers) by now inversion Hg.
      destruct (negb (r_status r =? 200)).
      { simpl. split; now repeat constructor. }
      cbv zeta.
      generalize (publish_all_requests tok (kept most_recent (r_json r)) pb).
      pose proof (publish_all_trace PB pb_add tok (kept most_recent (r_json r)) pb)
        as T.
      destruct (publish_all pb_add tok (kept most_recent (r_json r)) pb)
        as [[ev pb1] r1].
      destruct (T _ _ _ eq_refl) as (F & _). simpl. intros W.
      destruct r1 as [o|[]].
      { simpl. rewrite F. split; [exact W | now repeat constructor]. }
      destruct (match most_recent with
                | Some fn => snd (filter_stars (r_json r) fn)
                | None => hit end).
      { simpl. rewrite F. split; [exact W | now repeat constructor]. }
      specialize (IH g' false pb1).
      destruct (main_loop pb_add github fuel headers sort_dir tok g'
                  most_recent false pb1) as [[ev2 pb2] res2].
      simpl in *. destruct IH as [IH1 IH2].
      rewrite adds_app, fetched_app, F. simpl. split.
      * now apply Forall_app.
      * now constructor.
    + rewrite (main_loop_end PB pb_add github headers sort_dir tok _ _ _ _ _ Hg).
      simpl. split; constructor.
Qed.

(** X8.  In every run, every bookmark request carries [replace=no], the
    Pinboard token, the format [json] and tags that start with the marker
    tag, and every request for a page of stars carries the headers built
    by [main]. *)
Theorem run_requests_are_well_formed fuel headers tok pb :
  let evs := fst (fst (run (sync pb_recent pb_add github fuel headers tok) pb)) in
  Forall (fun pr => well_formed_request tok (fst pr)) (adds evs)
  /\ Forall (fun qr => q_headers (fst qr) = headers) (fetched evs).
Proof.
  unfold run. rewrite sync_unfold. cbv zeta.
  destruct (match pb_recent pb (recent_query tok) with
            | [] => ("asc", None)
            | p :: _ => ("desc", Some (post_description p))
            end) as [sort_dir most_recent].
  generalize (main_loop_requests headers sort_dir tok most_recent fuel GenStart
                false pb).
  destruct (main_loop pb_add github fuel headers sort_dir tok GenStart
              most_recent false pb) as [[ev pb1] res].
  cbv zeta. cbn [fst]. intros [W F].
  destruct res as [o|u]; cbn [fst adds fetched]; split; assumption.
Qed.

Lemma expected_not_target fn pages name :
  In name (expected (Some fn) pages) -> same_name name fn = false.
Proof.
  unfold expected. intros H. apply in_concat in H.
  destruct H as (l & Hl & Hn). apply in_map_iff in Hl.
  destruct Hl as (qr & <- & _). unfold names in Hn.
  apply in_map_iff in Hn. destruct Hn as (s & <- & Hs).
  unfold kept, filter_stars in Hs.
  now apply (filter_from_kept (r_json (snd qr)) fn [] (r_json (snd qr)) eq_refl
               (fun s (H : In s []) => match H with end)).
Qed.

(** X9.  In every run that has a target (the description of the most
    recent marker-tagged bookmark), no star handed to the publisher has
    the name of the target, compared without case. *)
Theorem target_is_never_published fuel headers tok pb evs pb' out p rest name :
  run (sync pb_recent pb_add github fuel headers tok) pb = (evs, pb', out) ->
  pb_recent pb (recent_query tok) = p :: rest ->
  In name (adding evs) ->
  same_name name (post_description p) = false.
Proof.
  intros H Hp Hin.
  destruct (run_sync_inv PB pb_recent pb_add github _ _ _ _ _ _ _ H)
    as (sort_dir & most_recent & ev & res & Hc & Hm & He & Ho).
  rewrite Hp in Hc. inversion Hc; subst sort_dir most_recent.
  destruct (main_loop_trace PB pb_add github _ _ _ _ _ _ _ _ _ _ Hm)
    as (_ & [tail Hpre] & _).
  subst evs. cbn [adding] in Hin.
  apply (expected_not_target (post_description p) (fetched ev)).
  rewrite Hpre. apply in_or_app. now left.
Qed.

End Publishing.

(** ** Token files *)

Lemma lstrip_occurs c s :
  PyFile.occurs c (PyFile.lstrip s) = true -> PyFile.occurs c s = true.
Proof.
  induction s as [|a s IH]; simpl; [trivial|].
  destruct (PyFile.is_space a); [|trivial].
  intros H. rewrite (IH H). apply orb_true_r.
Qed.

Lemma lstrip_lstrip s : PyFile.lstrip (PyFile.lstrip s) = PyFile.lstrip s.
Proof.
  induction s as [|a s IH]; simpl; [reflexivity|].
  destruct (PyFile.is_space a) eqn:Ha; [exact IH|].
  simpl. now rewrite Ha.
Qed.

Lemma rstrip_rstrip s : PyFile.rstrip (PyFile.rstrip s) = PyFile.rstrip s.
Proof.
  induction s as [|a s IH]; simpl; [reflexivity|].
  destruct (PyFile.rstrip s) as [|b t] eqn:E.
  - destruct (PyFile.is_space a) eqn:Ha; simpl; [reflexivity|].
    now rewrite Ha.
  - cbn [PyFile.rstrip]. cbn [PyFile.rstrip] in IH. now rewrite IH.
Qed.

(** Stripping on the left keeps a text that is stripped on the right
    stripped on the right. *)
Lemma rstrip_lstrip s :
  PyFile.rstrip s = s -> PyFile.rstrip (PyFile.lstrip s) = PyFile.lstrip s.
Proof.
  induction s as [|a s IH]; intros H; [reflexivity|].
  cbn [PyFile.lstrip]. destruct (PyFile.is_space a) eqn:Ha; [|exact H].
  apply IH. cbn [PyFile.rstrip] in H.
  destruct (PyFile.rstrip s) as [|b t] eqn:E.
  - rewrite Ha in H. discriminate H.
  - now inversion H.
Qed.

(** The first line, stripped on the right, has no line feed. *)
Lemma rstrip_readline_one_line f :
  PyFile.occurs (ascii_of_nat 10) (PyFile.rstrip (PyFile.readline f)) = false.
Proof.
  induction f as [|a f IH]; [reflexivity|].
  cbn [PyFile.readline]. destruct (Ascii.eqb a (ascii_of_nat 10)) eqn:Ha.
  - apply Ascii.eqb_eq in Ha. subst a. reflexivity.
  - cbn [PyFile.rstrip].
    assert (Ha' : Ascii.eqb (ascii_of_nat 10) a = false)
      by now rewrite Ascii.eqb_sym.
    destruct (PyFile.rstrip (PyFile.readline f)) as [|b t] eqn:E.
    + destruct (PyFile.is_space a); [reflexivity|].
      cbn [PyFile.occurs]. now rewrite Ha'.
    + cbn [PyFile.occurs]. cbn [PyFile.occurs] in IH. now rewrite Ha', IH.
Qed.

Section Tokens.

Variable PB : Type.
Variable pb_recent : PB -> recent_params -> list post.
Variable pb_add : PB -> add_params -> add_response * PB.
Variable github : gh_request -> gh_response.
Variable expanduser : string -> string.
Variable files : string -> option string.

(** X10.  [load_token] gives no token exactly when the file does not
    exist; a token it gives is on one line (it has no line feed) and has
    no white space at its ends: stripping it again changes nothing. *)
Theorem load_token_is_clean filename :
  (load_token expanduser files filename = None
   <-> files (expanduser filename) = None)
  /\ forall token,
      load_token expanduser files filename = Some token ->
      PyFile.occurs (ascii_of_nat 10) token = false
      /\ PyFile.lstrip token = token
      /\ PyFile.rstrip token = token.
Proof.
  unfold load_token. destruct (files (expanduser filename)) as [f|].
  - split; [split; discriminate|].
    intros token H. inversion H; subst token. unfold PyFile.strip.
    repeat split.
    + destruct (PyFile.occurs (ascii_of_nat 10)
                  (PyFile.lstrip (PyFile.rstrip (PyFile.readline f)))) eqn:E;
        [|reflexivity].
      apply lstrip_occurs in E.
      now rewrite rstrip_readline_one_line in E.
    + apply lstrip_lstrip.
    + apply rstrip_lstrip, rstrip_rstrip.
  - split; [tauto | discriminate].
Qed.

(** X11.  Without the option and without the file for the GitHub token,
    [main] prints that it could not load the GitHub token and exits with
    status 1 without a request to either service, whatever the Pinboard
    token; with a GitHub token but without the option and the file for the
    Pinboard token, it does the same for the Pinboard token. *)
Theorem main_needs_both_tokens fuel args pb :
  (PyStr.truthy (arg_github_token args) = false ->
   files (expanduser "~/.github_oauth_token") = None ->
   run (main pb_recent pb_add github expanduser files fuel args) pb
   = ([PrintErr ErrNoGitHubToken], pb, Exited 1))
  /\ (PyStr.truthy (arg_github_token args) = true
      \/ files (expanduser "~/.github_oauth_token") <> None ->
      PyStr.truthy (arg_pinboard_token args) = false ->
      files (expanduser "~/.pinboard_api_token") = None ->
      run (main pb_recent pb_add github expanduser files fuel args) pb
      = ([PrintErr ErrNoPinboardToken], pb, Exited 1)).
Proof.
  unfold main, py_or, load_token. split.
  - intros -> ->. reflexivity.
  - intros Hg -> ->.
    destruct (PyStr.truthy (arg_github_token args)) eqn:Ht.
    + destruct (arg_github_token args); [reflexivity | discriminate Ht].
    + destruct Hg as [Hg|Hg]; [discriminate Hg|].
      destruct (files (expanduser "~/.github_oauth_token")); [reflexivity|].
      now elim Hg.
Qed.

(** X12.  A GitHub token file whose first line is blank does not count as
    a missing token: [main] goes on and sends [token ] followed by nothing
    as [authorization] header. *)
Theorem blank_token_file_is_accepted fuel args pb f pb_tok :
  PyStr.truthy (arg_github_token args) = false ->
  files (expanduser "~/.github_oauth_token") = Some f ->
  PyFile.strip (PyFile.readline f) = EmptyString ->
  py_or (arg_pinboard_token args)
        (load_token expanduser files "~/.pinboard_api_token") = Some pb_tok ->
  main pb_recent pb_add github expanduser files fuel args pb
  = sync pb_recent pb_add github fuel
         {| h_authorization := "token ";
            h_accept := "application/vnd.github.v3+json";
            h_user_agent := arg_github_user args |}
         pb_tok pb.
Proof.
  intros Ht Hf Hb Hp. unfold main. rewrite Hp.
  unfold py_or at 1. rewrite Ht. unfold load_token. rewrite Hf, Hb.
  reflexivity.
Qed.

End Tokens.

Lemma load_token_is_clean_witness :
  load_token Home.expanduser Home.github_only "~/.github_oauth_token"
  = Some "gh0123"
  /\ PyFile.occurs (ascii_of_nat 10) "gh0123" = false
  /\ PyFile.lstrip "gh0123" = "gh0123"
  /\ PyFile.rstrip "gh0123" = "gh0123".
Proof.
  split; [reflexivity|].
  apply (proj2 (load_token_is_clean Home.expanduser Home.github_only
                  "~/.github_oauth_token")).
  reflexivity.
Defined.

Lemma main_needs_both_tokens_witness :
  run (main Env.recent Env.add Scenario.one_page Home.expanduser Home.nothing
            5 Home.no_options) Scenario.empty
  = ([PrintErr ErrNoGitHubToken], Scenario.empty, Exited 1)
  /\ run (main Env.recent Env.add Scenario.one_page Home.expanduser
               Home.github_only 5 Home.no_options) Scenario.empty
     = ([PrintErr ErrNoPinboardToken], Scenario.empty, Exited 1).
Proof.
  split.
  - apply (proj1 (main_needs_both_tokens Env.account Env.recent Env.add
                    Scenario.one_page Home.expanduser Home.nothing 5
                    Home.no_options Scenario.empty)); reflexivity.
  - apply (proj2 (main_needs_both_tokens Env.account Env.recent Env.add
                    Scenario.one_page Home.expanduser Home.github_only 5
                    Home.no_options Scenario.empty)).
    + right. discriminate.
    + reflexivity.
    + reflexivity.
Defined.

Lemma blank_token_file_is_accepted_witness :
  main Env.recent Env.add Scenario.one_page Home.expanduser Home.blank_github
       5 Home.no_options Scenario.empty
  = sync Env.recent Env.add Scenario.one_page 5
         {| h_authorization := "token ";
            h_accept := "application/vnd.github.v3+json";
            h_user_agent := "octo" |}
         "octo:pb77" Scenario.empty.
Proof.
  apply (blank_token_file_is_accepted Env.account Env.recent Env.add
           Scenario.one_page Home.expanduser Home.blank_github 5
           Home.no_options Scenario.empty EmptyString "octo:pb77");
    reflexivity.
Defined.

(** ** The page generator: where it stops *)

Section StopsEarly.

Variable PB : Type.
Variable github : gh_request -> gh_response.
Variable headers : gh_headers.
Variable sort_dir : string.

Let req := page_request headers sort_dir.
Let fetch_of (n : nat) : event := Fetch (req n) (github (req n)).
Let yield_of (n : nat) : list star * Z :=
  (r_json (github (req n)), r_status (github (req n))).

Variable last_page : nat.
Variable stop_page : nat.
Hypothesis Hstop_page : (1 <= stop_page)%nat.

(** Up to [stop_page] the [link] header names the next page and the last
    one. *)
Hypothesis Hlinks :
  forall n, (1 <= n <= stop_page)%nat ->
    exists link,
      r_link (github (req n)) = Some link
      /\ link_groups link = Some (page_name (S n), page_name last_page).

(** As texts, the numbers of the pages 2, ..., [stop_page] are not after
    the number of the last page, and the number of the page after
    [stop_page] is. *)
Hypothesis Hbefore :
  forall n, (1 <= n < stop_page)%nat ->
    String.leb (page_name (S n)) (page_name last_page) = true.
Hypothesis Hafter :
  String.leb (page_name (S stop_page)) (page_name last_page) = false.

Lemma drain_to_stop k n page last (pb : PB) :
  (1 <= n)%nat -> (n + k = stop_page)%nat ->
  drain github (S k) headers sort_dir (GenYielded (github (req n)) page last) pb
  = (map fetch_of (seq (S n) k), pb, inr (map yield_of (seq (S n) k))).
Proof.
  revert n page last. induction k as [|k IH]; intros n page last Hn Hk.
  - apply drain_end. cbn [gen_next].
    destruct (Hlinks n) as (link & -> & ->); [lia|].
    unfold loop_head. cbn [py_le].
    replace n with stop_page by lia. now rewrite Hafter.
  - rewrite (drain_yield PB github headers sort_dir _ _ _ (req (S n))
               (github (req (S n)))
               (GenYielded (github (req (S n))) (PyString (page_name (S n)))
                           (PyString (page_name last_page)))).
    + rewrite IH by lia. reflexivity.
    + cbn [gen_next]. destruct (Hlinks n) as (link & -> & ->); [lia|].
      unfold loop_head. cbn [py_le]. rewrite Hbefore by lia. reflexivity.
Qed.

(** X13.  The generator compares page numbers as texts: on a listing
    whose [link] headers name the next and the last page, it requests the
    pages 1, ..., [stop_page] in order and ends there, [stop_page] being
    the first page whose successor, written in decimal, comes after the
    last page number in the order of strings - whatever the number of
    pages that remain. *)
Theorem drain_stops_in_text_order (pb : PB) :
  drain github (S stop_page) headers sort_dir GenStart pb
  = (map fetch_of (seq 1 stop_page), pb, inr (map yield_of (seq 1 stop_page))).
Proof.
  assert (D := drain_to_stop (stop_page - 1) 1 (PyInt 1) (PyInt 1) pb
                 (le_n 1) ltac:(lia)).
  replace (S (stop_page - 1)) with stop_page in D by lia.
  rewrite (drain_yield PB github headers sort_dir _ _ _ (req 1) (github (req 1))
             (GenYielded (github (req 1)) (PyInt 1) (PyInt 1))).
  - rewrite D, (seq_from_one stop_page) by lia. reflexivity.
  - reflexivity.
Qed.

End StopsEarly.

(** 271 stars in ten pages: the generator stops after page 1. *)
Lemma drain_stops_in_text_order_witness :
  let q := page_request Env.headers "desc" 1 in
  drain (PB:=unit) Scenario.ten_pages 2 Env.headers "desc" GenStart tt
  = ([Fetch q (Scenario.ten_pages q)], tt,
     inr [(r_json (Scenario.ten_pages q), r_status (Scenario.ten_pages q))]).
Proof.
  apply (drain_stops_in_text_order unit Scenario.ten_pages Env.headers "desc"
           10 1 (le_n 1)).
  - intros n Hn. assert (n = 1%nat) by lia. subst n.
    eexists. split; vm_compute; reflexivity.
  - intros n Hn. lia.
  - reflexivity.
Defined.

(** 270 stars in nine pages: the generator requests all of them. *)
Lemma drain_visits_pages_up_to_nine_witness :
  let github := Env.listing (Scenario.numbered 270) 30 in
  let req := page_request Env.headers "asc" in
  drain (PB:=unit) github 10 Env.headers "asc" GenStart tt
  = (map (fun n => Fetch (req n) (github (req n))) (seq 1 9), tt,
     inr (map (fun n => (r_json (github (req n)), r_status (github (req n))))
              (seq 1 9))).
Proof.
  apply (drain_visits_pages_up_to_nine unit
           (Env.listing (Scenario.numbered 270) 30) Env.headers "asc" 9).
  - lia.
  - intros n Hn.
    assert (I : In n (seq 1 8)) by (apply in_seq; lia).
    simpl in I.
    repeat (destruct I as [<-|I];
            [eexists; split; vm_compute; reflexivity|]).
    contradiction.
  - eexists. split; vm_compute; reflexivity.
Defined.

(** Three stars in one page, without [link] header: after five requests
    the generator is still asking for page 1. *)
Lemma drain_without_link_header_witness :
  let q := page_request Env.headers "asc" 1 in
  drain (PB:=unit) Scenario.one_page 5 Env.headers "asc" GenStart tt
  = (repeat (Fetch q (Scenario.one_page q)) 5, tt, inl OutOfFuel).
Proof.
  apply (drain_without_link_header unit Scenario.one_page Env.headers "asc" 5 tt).
  reflexivity.
Defined.

(** ** Publishing on the scenarios *)

Lemma rate_limit_recovered_witness :
  publish_star Env.add Scenario.tok Scenario.a Limited.twice
  = ([Print (InfoAdding "octo/alpha"); Add Scenario.a_params Env.limited;
      Print WarnRateLimited; Sleep 3;
      Add Scenario.a_params Scenario.limited_but_done;
      Print WarnRateLimited; Sleep 6; Add Scenario.a_params Limited.accepted;
      Sleep 3],
     Scenario.empty, inr tt).
Proof.
  destruct (rate_limit_recovered Env.account Env.add Scenario.tok Scenario.a
              Scenario.a_params Limited.twice Env.limited
              [Scenario.limited_but_done] Limited.accepted Scenario.empty)
    as [E _].
  - reflexivity.
  - reflexivity.
  - reflexivity.
  - repeat constructor.
  - reflexivity.
  - discriminate.
  - reflexivity.
  - exact E.
Defined.

Lemma retries_used_up_witness :
  exists evs,
    publish_star Env.add Scenario.tok Scenario.a Limited.throughout
    = (evs, Scenario.empty, inr tt)
    /\ sleeps evs = [3; 6; 9; 12; 15; 18; 21; 24; 27; 30; 3].
Proof.
  destruct (retries_used_up Env.account Env.add Scenario.tok Scenario.a
              Scenario.a_params Limited.throughout Env.limited
              (repeat Scenario.limited_but_done 10) Scenario.empty)
    as [E S].
  - reflexivity.
  - vm_compute. reflexivity.
  - reflexivity.
  - repeat constructor.
  - reflexivity.
  - eexists. split; [exact E|]. exact S.
Defined.

Lemma publish_star_ends_with_pause_witness :
  exists evs',
    [Print (InfoAdding "octo/alpha");
     Add Scenario.a_params Scenario.missing_url;
     Print (WarnResult "missing url"); Sleep 3]
    = evs' ++ [Sleep SLEEP_TIME].
Proof.
  apply (publish_star_ends_with_pause Env.account Env.add Scenario.tok
           Scenario.a Scenario.refusing _ Scenario.empty).
  reflexivity.
Defined.

Lemma target_is_never_published_witness :
  same_name "octo/alpha" "octo/xi" = false.
Proof.
  pose (res := run (sync Env.recent Env.add Scenario.one_page 5 Env.headers
                         Scenario.tok) Scenario.resumed).
  apply (target_is_never_published Env.account Env.recent Env.add
           Scenario.one_page 5 Env.headers Scenario.tok Scenario.resumed
           (fst (fst res)) (snd (fst res)) (snd res)
           (Env.bookmark_of Scenario.x) [] "octo/alpha").
  - apply triple_eta.
  - reflexivity.
  - vm_compute. left. reflexivity.
Defined.

(** ** How a run ends *)

Section Endings.

Variable PB : Type.
Variable pb_recent : PB -> recent_params -> list post.
Variable pb_add : PB -> add_params -> add_response * PB.
Variable github : gh_request -> gh_response.

Lemma errlines_app (a b : list event) :
  errlines (a ++ b) = errlines a ++ errlines b.
Proof.
  induction a as [|e a IH]; simpl; [reflexivity|].
  destruct e; simpl; now rewrite ?IH.
Qed.

(** Events without error message in front of a trace keep the
    agreement. *)
Lemma errors_agree_after {A} (pre evs : list event) (res : outcome + A) :
  errlines pre = [] -> errors_agree evs res -> errors_agree (pre ++ evs) res.
Proof.
  intros Hpre H. unfold errors_agree in *.
  assert (K : errlines evs = [] -> errlines (pre ++ evs) = [])
    by (intros E; now rewrite errlines_app, Hpre, E).
  assert (F : fatal_trace evs -> fatal_trace (pre ++ evs)).
  { intros (evs' & e & -> & E). exists (pre ++ evs'), e. split.
    - now rewrite app_assoc.
    - now rewrite errlines_app, Hpre, E. }
  destruct res as [[|code|x|]|a]; auto.
  destruct code as [|[k|k|]|]; auto.
Qed.

Lemma retry_loop_errors tok g fuel r s retry pb :
  errors_agree (fst (fst (retry_loop pb_add fuel tok g r s retry pb)))
               (snd (retry_loop pb_add fuel tok g r s retry pb)).
Proof.
  revert r s retry pb. induction fuel as [|fuel IH]; intros r s retry pb.
  - reflexivity.
  - destruct ((s =? 429) && (retry <=? MAX_RETRIES))%bool eqn:C.
    + destruct (add_bookmark_params g tok) as [e|p] eqn:Hp.
      * rewrite (retry_loop_raise PB pb_add _ _ _ _ _ _ _ _ C Hp). reflexivity.
      * destruct (pb_add pb p) as [resp pb1] eqn:Ha.
        rewrite (retry_loop_body PB pb_add _ _ _ _ _ _ _ _ _ _ C Hp Ha).
        cbv zeta. destruct (not_done (result_code resp)).
        -- cbn [fst snd errors_agree]. eexists _, _. split; reflexivity.
        -- specialize (IH (result_code resp) (status_code resp) (retry + 1) pb1).
           destruct (retry_loop pb_add fuel tok g (result_code resp)
                       (status_code resp) (retry + 1) pb1) as [[ev2 pb2] res2].
           cbn [fst snd] in *. now apply errors_agree_after.
    + rewrite (retry_loop_else PB pb_add _ _ _ _ _ _ _ C).
      now destruct (not_done r).
Qed.

Lemma publish_star_errors tok g pb :
  errors_agree (fst (fst (publish_star pb_add tok g pb)))
               (snd (publish_star pb_add tok g pb)).
Proof.
  destruct (add_bookmark_params g tok) as [e|p] eqn:Hp.
  - rewrite (publish_star_raised PB pb_add _ _ _ _ Hp). reflexivity.
  - destruct (pb_add pb p) as [resp pb1] eqn:Ha.
    rewrite (publish_star_sent PB pb_add _ _ _ _ _ _ Hp Ha).
    generalize (retry_loop_errors tok g (S (Z.to_nat MAX_RETRIES))
                  (result_code resp) (status_code resp) 1 pb1).
    destruct (retry_loop pb_add (S (Z.to_nat MAX_RETRIES)) tok g
                (result_code resp) (status_code resp) 1 pb1)
      as [[ev pb2] res].
    cbn [fst snd]. intros H.
    now apply (errors_agree_after
                 [Print (InfoAdding (full_name g)); Add p resp] ev res).
Qed.

Lemma publish_all_errors tok stars pb :
  errors_agree (fst (fst (publish_all pb_add tok stars pb)))
               (snd (publish_all pb_add tok stars pb)).
Proof.
  revert pb. induction stars as [|g rest IH]; intros pb.
  - reflexivity.
  - rewrite publish_all_cons.
    generalize (publish_star_errors tok g pb).
    destruct (publish_star pb_add tok g pb) as [[ev pb1] [o|[]]];
      cbn [fst snd]; [trivial|].
    intros H. specialize (IH pb1).
    destruct (publish_all pb_add tok rest pb1) as [[ev2 pb2] res2].
    cbn [fst snd] in *. now apply errors_agree_after.
Qed.

Lemma main_loop_errors headers sort_dir tok most_recent fuel g hit pb :
  errors_agree
    (fst (fst (main_loop pb_add github fuel headers sort_dir tok g most_recent
                         hit pb)))
    (snd (main_loop pb_add github fuel headers sort_dir tok g most_recent hit pb)).
Proof.
  revert g hit pb. induction fuel as [|fuel IH]; intros g hit pb.
  - reflexivity.
  - destruct (gen_next_step PB github headers sort_dir g pb) as [[[[q r] g']|] Hg].
    + rewrite (main_loop_page PB pb_add github headers sort_dir tok
                 _ _ _ _ _ _ _ _ Hg).
      destruct (negb (r_status r =? 200)).
      { cbn [fst snd errors_agree]. exists [Fetch q r], (ErrGitHub (r_json r)).
        split; reflexivity. }
      cbv zeta.
      generalize (publish_all_errors tok (kept most_recent (r_json r)) pb).
      destruct (publish_all pb_add tok (kept most_recent (r_json r)) pb)
        as [[ev pb1] r1].
      cbn [fst snd]. intros H.
      destruct r1 as [o|[]].
      { cbn [fst snd]. now apply (errors_agree_after [Fetch q r] ev (inl o)). }
      cbn [errors_agree] in H.
      destruct (match most_recent with
                | Some fn => snd (filter_stars (r_json r) fn)
                | None => hit end).
      { cbn [fst snd errors_agree]. exact H. }
      specialize (IH g' false pb1).
      destruct (main_loop pb_add github fuel headers sort_dir tok g'
                  most_recent false pb1) as [[ev2 pb2] res2].
      cbn [fst snd] in *.
      apply (errors_agree_after (Fetch q r :: ev) ev2 res2); assumption.
    + rewrite (main_loop_end PB pb_add github headers sort_dir tok _ _ _ _ _ Hg).
      reflexivity.
Qed.

(** X14.  A run ends through [sys.exit(1)] only when the last thing it
    did was to print an [ERROR] line, and then this is the only one of
    the run; a run that ends in another way - it returns, it ends through
    [sys.exit(0)], or an exception such as the [TypeError] of line 64 is
    not caught - has printed no [ERROR] line. *)
Theorem exit_one_goes_with_one_error fuel headers tok pb :
  let res := run (sync pb_recent pb_add github fuel headers tok) pb in
  (snd res = Exited 1 -> fatal_trace (fst (fst res)))
  /\ (snd res <> Exited 1 -> errlines (fst (fst res)) = []).
Proof.
  unfold run. rewrite sync_unfold. cbv zeta.
  destruct (match pb_recent pb (recent_query tok) with
            | [] => ("asc", None)
            | p :: _ => ("desc", Some (post_description p))
            end) as [sort_dir most_recent].
  generalize (main_loop_errors headers sort_dir tok most_recent fuel GenStart
                false pb).
  destruct (main_loop pb_add github fuel headers sort_dir tok GenStart
              most_recent false pb) as [[ev pb1] res].
  cbn [fst snd]. intros H.
  apply (errors_agree_after
           [Recent (recent_query tok) (pb_recent pb (recent_query tok));
            Print InfoGetting] ev res eq_refl) in H.
  cbn [app] in H.
  destruct res as [o|u]; cbn [fst snd].
  - unfold errors_agree in H. split.
    + intros ->. exact H.
    + intros Hne. destruct o as [|code|x|]; auto.
      destruct code as [|[k|k|]|]; auto. now elim Hne.
  - split; [discriminate | intros _; exact H].
Qed.

(** The ways the loop of [main] ends without an error. *)
Lemma main_loop_ending headers sort_dir tok most_recent fuel g pb evs pb' res :
  main_loop pb_add github fuel headers sort_dir tok g most_recent false pb
  = (evs, pb', res) ->
  (ending res = Exited 0 ->
   exists fn pre q r post_,
     most_recent = Some fn /\ evs = pre ++ Fetch q r :: post_
     /\ r_status r = 200 /\ snd (filter_stars (r_json r) fn) = true)
  /\ (ending res = Returned ->
      Forall (fun qr =>
                r_status (snd qr) = 200
                /\ forall fn, most_recent = Some fn ->
                              snd (filter_stars (r_json (snd qr)) fn) = false)
             (fetched evs)).
Proof.
  revert g pb evs pb' res.
  induction fuel as [|fuel IH]; intros g pb evs pb' res H.
  - inversion H; subst. split; discriminate.
  - destruct (gen_next_step PB github headers sort_dir g pb) as [[[[q r] g']|] Hg].
    + rewrite (main_loop_page PB pb_add github headers sort_dir tok
                 _ _ _ _ _ _ _ _ Hg) in H.
      destruct (negb (r_status r =? 200)) eqn:Hs.
      { inversion H; subst. split; discriminate. }
      apply negb_false_iff, Z.eqb_eq in Hs.
      cbv zeta in H.
      destruct (publish_all pb_add tok (kept most_recent (r_json r)) pb)
        as [[ev pb1] r1] eqn:Ep.
      destruct (publish_all_trace PB pb_add _ _ _ _ _ _ Ep) as (F & _ & _ & O).
      destruct r1 as [o|[]].
      { inversion H; subst.
        destruct O as [O|[O|O]]; inversion O; subst; split; discriminate. }
      destruct (match most_recent with
                | Some fn => snd (filter_stars (r_json r) fn)
                | None => false end) eqn:Eh.
      { inversion H; subst. split; [|discriminate].
        intros _. destruct most_recent as [fn|]; [|discriminate Eh].
        now exists fn, [], q, r, ev. }
      destruct (main_loop pb_add github fuel headers sort_dir tok g'
                  most_recent false pb1) as [[ev2 pb2] res2] eqn:Em.
      inversion H; subst.
      destruct (IH _ _ _ _ _ Em) as [I0 IR]. split.
      * intros E. destruct (I0 E) as (fn & pre & q0 & r0 & post_ & -> & -> & K).
        exists fn, (Fetch q r :: ev ++ pre), q0, r0, post_.
        split; [reflexivity|]. split; [|exact K].
        cbn [app]. now rewrite <- app_assoc.
      * intros E. cbn [fetched]. rewrite fetched_app, F. cbn [app].
        constructor; [|exact (IR E)].
        cbn [snd]. split; [exact Hs|].
        intros fn ->. exact Eh.
    + rewrite (main_loop_end PB pb_add github headers sort_dir tok _ _ _ _ _ Hg)
        in H.
      inversion H; subst. split; [discriminate | constructor].
Qed.

(** X15.  A run ends with exit status 0 through [sys.exit] only at a
    boundary page: Pinboard had a marker-tagged bookmark, and a page
    answered with status 200 on which the filter found the description of
    the most recent one was requested. *)
Theorem exit_zero_only_at_boundary fuel headers tok pb evs pb' :
  run (sync pb_recent pb_add github fuel headers tok) pb = (evs, pb', Exited 0) ->
  exists p rest pre q r post_,
    pb_recent pb (recent_query tok) = p :: rest
    /\ evs = pre ++ Fetch q r :: post_
    /\ r_status r = 200
    /\ snd (filter_stars (r_json r) (post_description p)) = true.
Proof.
  intros H.
  destruct (run_sync_inv PB pb_recent pb_add github _ _ _ _ _ _ _ H)
    as (sort_dir & most_recent & ev & res & Hc & Hm & He & Ho).
  destruct (main_loop_ending _ _ _ _ _ _ _ _ _ _ Hm) as [I0 _].
  destruct (I0 (eq_sym Ho)) as (fn & pre & q & r & post_ & -> & -> & Hs & Hf).
  destruct (pb_recent pb (recent_query tok)) as [|p rest]; inversion Hc; subst.
  exists p, rest,
    (Recent (recent_query tok) (p :: rest) :: Print InfoGetting :: pre),
    q, r, post_.
  repeat split; auto.
Qed.

(** X16.  When a run ends by returning from [main], every page it
    requested was answered with status 200, and if there was a target the
    filter found it on none of them. *)
Theorem return_means_every_page_passed fuel headers tok pb evs pb' :
  run (sync pb_recent pb_add github fuel headers tok) pb = (evs, pb', Returned) ->
  Forall (fun qr => r_status (snd qr) = 200) (fetched evs)
  /\ forall p rest,
      pb_recent pb (recent_query tok) = p :: rest ->
      Forall (fun qr =>
                snd (filter_stars (r_json (snd qr)) (post_description p)) = false)
             (fetched evs).
Proof.
  intros H.
  destruct (run_sync_inv PB pb_recent pb_add github _ _ _ _ _ _ _ H)
    as (sort_dir & most_recent & ev & res & Hc & Hm & He & Ho).
  destruct (main_loop_ending _ _ _ _ _ _ _ _ _ _ Hm) as [_ IR].
  specialize (IR (eq_sym Ho)). subst evs. cbn [fetched]. split.
  - apply Forall_forall. intros qr Hqr.
    exact (proj1 (proj1 (Forall_forall _ _) IR qr Hqr)).
  - intros p rest Hp. rewrite Hp in Hc. inversion Hc; subst.
    apply Forall_forall. intros qr Hqr.
    exact (proj2 (proj1 (Forall_forall _ _) IR qr Hqr) _ eq_refl).
Qed.

End Endings.

Lemma exit_zero_only_at_boundary_witness :
  let res := run (sync Env.recent Env.add Scenario.one_page 5 Env.headers
                       Scenario.tok) Scenario.resumed in
  exists p rest pre q r post_,
    Env.recent Scenario.resumed (recent_query Scenario.tok) = p :: rest
    /\ fst (fst res) = pre ++ Fetch q r :: post_
    /\ r_status r = 200
    /\ snd (filter_stars (r_json r) (post_description p)) = true.
Proof.
  intros res.
  apply (exit_zero_only_at_boundary Env.account Env.recent Env.add
           Scenario.one_page 5 Env.headers Scenario.tok Scenario.resumed
           (fst (fst res)) (snd (fst res))).
  rewrite (triple_eta res) at 1. reflexivity.
Defined.

Lemma return_means_every_page_passed_witness :
  let res := run (sync Env.recent Env.add Scenario.two_pages 5 Env.headers
                       Scenario.tok) Scenario.empty in
  Forall (fun qr => r_status (snd qr) = 200) (fetched (fst (fst res))).
Proof.
  intros res.
  apply (proj1 (return_means_every_page_passed Env.account Env.recent Env.add
                  Scenario.two_pages 5 Env.headers Scenario.tok Scenario.empty
                  (fst (fst res)) (snd (fst res))
                  ltac:(rewrite (triple_eta res) at 1; reflexivity))).
Defined.
